(** * Confirmed-data resolvers and the stateless log filter of raiden

    A shallow embedding of
      - [raiden/utils/filters.py]    (class [StatelessFilter]) and
      - [raiden/blockchain/state.py] (the [get_contractreceive*_data_from_event]
        resolvers),
    followed by the properties of the two modules.

    Python code that talks to the chain node is embedded in a small state
    monad with exceptions.  Unlike a transactional error monad, a raised
    exception keeps every mutation made before it, as in Python. *)

From Stdlib Require Import ZArith List String Ascii Bool Lia Permutation.
From Stdlib Require Strings.Byte.
Import ListNotations.
Local Open Scope string_scope.
Local Open Scope list_scope.
Local Open Scope Z_scope.

(** ** Python exceptions and the result of a call *)

Inductive Exception : Type :=
| ValueError (msg : string)
| AssertionError (msg : option string)
| KeyError (key : list Byte.byte)
| OtherError (name : string).

(** [Return a]: the call returned [a]; [Raise e]: exception [e] escaped the
    call; [OutOfFuel]: the model of a [while] loop was given too few steps
    (shown below never to happen). *)
Inductive Outcome (A : Type) : Type :=
| Return (a : A)
| Raise (e : Exception)
| OutOfFuel.
Arguments Return {A} a.
Arguments Raise {A} e.
Arguments OutOfFuel {A}.

Definition M (S A : Type) : Type := S -> Outcome A * S.

Definition ret {S A} (a : A) : M S A := fun s => (Return a, s).
Definition raise {S A} (e : Exception) : M S A := fun s => (Raise e, s).
Definition bind {S A B} (m : M S A) (k : A -> M S B) : M S B :=
  fun s =>
    match m s with
    | (Return a, s') => k a s'
    | (Raise e, s') => (Raise e, s')
    | (OutOfFuel, s') => (OutOfFuel, s')
    end.

(** [try: m except ValueError: h] *)
Definition try_except_ValueError {S A} (m : M S A) (h : M S A) : M S A :=
  fun s =>
    match m s with
    | (Raise (ValueError _), s') => h s'
    | r => r
    end.

(** [isinstance(e, ValueError)] *)
Definition is_ValueError (e : Exception) : bool :=
  match e with ValueError _ => true | _ => false end.

Declare Scope py_scope.
Delimit Scope py_scope with py.
Notation "x <- m ;; k" := (bind m (fun x => k))
  (at level 61, m at next level, right associativity) : py_scope.
Notation "m ;;; k" := (bind m (fun _ => k))
  (at level 61, right associativity) : py_scope.
Local Open Scope py_scope.

(** ** Block specifications

    [BlockSpecification = Union[str, T_BlockNumber, T_BlockHash]]. *)

Definition bytes := list Byte.byte.
Definition BlockNumber := Z.

Inductive BlockSpecification : Type :=
| BlockNum (n : BlockNumber)
| BlockTag (s : string)
| BlockHash (h : bytes).

(** Python truthiness of a block specification ([if to_block:]). *)
Definition truthy (b : BlockSpecification) : bool :=
  match b with
  | BlockNum n => negb (n =? 0)
  | BlockTag s => negb (s =? "")%string
  | BlockHash h => match h with [] => false | _ => true end
  end.

(** [b in ("latest", "pending")] *)
Definition is_latest_or_pending (b : option BlockSpecification) : bool :=
  match b with
  | Some (BlockTag s) => (s =? "latest")%string || (s =? "pending")%string
  | _ => false
  end.

(** ** filters.py *)

Module Filters.

(** Modelled from the spec: [raiden.constants.GENESIS_BLOCK_NUMBER] is
    imported by filters.py and not defined there; the genesis block has
    height 0 (the cursor [-1] is the height just below it). *)
Definition GENESIS_BLOCK_NUMBER : BlockNumber := 0.

Definition FILTER_MAX_BLOCK_RANGE : Z := 100000.

(** The filter parameters: the two block bounds are optional keys of the
    dict, the rest (address, topics) is carried along unchanged. *)
Record FilterParams : Type := mkFilterParams {
  fromBlock : option BlockSpecification;
  toBlock : option BlockSpecification;
  address : bytes;
  topics : list (option bytes)
}.

Definition set_fromBlock (b : BlockSpecification) (p : FilterParams) :=
  mkFilterParams (Some b) (toBlock p) (address p) (topics p).
Definition set_toBlock (b : BlockSpecification) (p : FilterParams) :=
  mkFilterParams (fromBlock p) (Some b) (address p) (topics p).

Section StatelessFilter.

(** The chain node behind [self.web3]: an arbitrary state [World] and the
    three RPC calls the filter makes.  Each call may raise and may change
    the node's state. *)
Variable World : Type.
Variable Log : Type.

Record Web3 : Type := mkWeb3 {
  eth_getLogs : FilterParams -> World -> (Exception + list Log) * World;
  eth_blockNumber : World -> (Exception + BlockNumber) * World;
  eth_getBlock_number :
    BlockSpecification -> World -> (Exception + BlockNumber) * World
}.

Variable web3 : Web3.

(** Every RPC call is recorded together with its answer. *)
Inductive Interaction : Type :=
| GetLogs (p : FilterParams) (r : Exception + list Log)
| GetBlockNumber (r : Exception + BlockNumber)
| GetBlock (b : BlockSpecification) (r : Exception + BlockNumber).

(** The state a method of [StatelessFilter] runs in: the attribute
    [self._last_block], the node, and the record of RPC calls so far
    (newest last). *)
Record State : Type := mkState {
  _last_block : BlockNumber;
  node : World;
  trace : list Interaction
}.

Definition of_answer {A} (r : Exception + A) : Outcome A :=
  match r with inl e => Raise e | inr a => Return a end.

Definition getLogs (p : FilterParams) : M State (list Log) :=
  fun s =>
    let (r, w) := eth_getLogs web3 p (node s) in
    (of_answer r, mkState (_last_block s) w (trace s ++ [GetLogs p r])).

Definition blockNumber : M State BlockNumber :=
  fun s =>
    let (r, w) := eth_blockNumber web3 (node s) in
    (of_answer r, mkState (_last_block s) w (trace s ++ [GetBlockNumber r])).

Definition getBlock_number (b : BlockSpecification) : M State BlockNumber :=
  fun s =>
    let (r, w) := eth_getBlock_number web3 b (node s) in
    (of_answer r, mkState (_last_block s) w (trace s ++ [GetBlock b r])).

Definition set_last_block (n : BlockNumber) : M State unit :=
  fun s => (Return tt, mkState n (node s) (trace s)).

Definition get_last_block : M State BlockNumber :=
  fun s => (Return (_last_block s), s).

(** Modelled from the spec: [raiden.utils.block_specification_to_number]
    is imported by filters.py and not defined there.  It "resolves a
    symbolic block specifier (latest, pending, or a concrete height) to a
    numeric height via the chain node": a concrete height is returned as
    it is, anything else is asked of the node. *)
Definition block_specification_to_number (block : BlockSpecification)
  : M State BlockNumber :=
  match block with
  | BlockNum n => ret n
  | _ => getBlock_number block
  end.

(** [__init__]: the cursor starts at -1. *)
Definition init (w : World) : State := mkState (-1) w [].

Definition _do_get_new_entries (filter_params : FilterParams)
    (from_block to_block : BlockSpecification) : M State (list Log) :=
  let filter_params := set_fromBlock from_block filter_params in
  let filter_params := set_toBlock to_block filter_params in
  result <- getLogs filter_params ;;
  n <- block_specification_to_number to_block ;;
  set_last_block n ;;;
  ret result.

(** The [while] loop of [get_new_entries]; [fuel] bounds the number of
    tests of the loop condition.  The methods run under [self._lock], one
    call at a time, so a call is a function of the state it starts in. *)
Fixpoint get_new_entries_loop (fuel : nat) (filter_params : FilterParams)
    (target_block_number from_block_number : BlockNumber)
    (result : list Log) : M State (list Log) :=
  match fuel with
  | O => fun s => (OutOfFuel, s)
  | S fuel =>
      if from_block_number <=? target_block_number then
        let to_block :=
          Z.min (from_block_number + FILTER_MAX_BLOCK_RANGE)
                target_block_number in
        entries <- _do_get_new_entries filter_params
                     (BlockNum from_block_number) (BlockNum to_block) ;;
        get_new_entries_loop fuel filter_params target_block_number
          (from_block_number + FILTER_MAX_BLOCK_RANGE) (result ++ entries)
      else ret result
  end.

(** Steps given to the loop: one test per chunk and the final one. *)
Definition loop_fuel (target_block_number from_block_number : BlockNumber)
  : nat :=
  S (S (Z.to_nat
          ((target_block_number - from_block_number)
           / FILTER_MAX_BLOCK_RANGE))).

Definition get_new_entries (filter_params : FilterParams)
    (target_block_number : BlockNumber) : M State (list Log) :=
  filter_from_number <-
    block_specification_to_number
      (match fromBlock filter_params with
       | Some b => b
       | None => BlockNum GENESIS_BLOCK_NUMBER
       end) ;;
  last <- get_last_block ;;
  let from_block_number := Z.max filter_from_number (last + 1) in
  get_new_entries_loop (loop_fuel target_block_number from_block_number)
    filter_params target_block_number from_block_number [].

(** [block_number or self.web3.eth.blockNumber] *)
Definition block_number_or_current (block_number : option BlockNumber)
  : M State BlockNumber :=
  match block_number with
  | Some n => if n =? 0 then blockNumber else ret n
  | None => blockNumber
  end.

(** [self_filter_params] is the attribute [self.filter_params], which the
    method copies and never changes; [filter_params] is the copy. *)
Definition get_all_entries (self_filter_params : FilterParams)
    (block_number : option BlockNumber) : M State (list Log) :=
  let filter_params := self_filter_params in
  block_number <- block_number_or_current block_number ;;
  let filter_params :=
    if is_latest_or_pending (toBlock self_filter_params)
    then set_toBlock (BlockNum block_number) filter_params
    else filter_params in
  result <- getLogs filter_params ;;
  match toBlock filter_params with
  | Some to_block =>
      if truthy to_block then
        n <- block_specification_to_number to_block ;;
        set_last_block n
      else set_last_block block_number
  | None => set_last_block block_number
  end ;;;
  ret result.

End StatelessFilter.

Arguments Web3 : clear implicits.
Arguments mkWeb3 {World Log}.
Arguments eth_getLogs {World Log}.
Arguments eth_blockNumber {World Log}.
Arguments eth_getBlock_number {World Log}.
Arguments Interaction : clear implicits.
Arguments GetLogs {Log}.
Arguments GetBlockNumber {Log}.
Arguments GetBlock {Log}.
Arguments State : clear implicits.
Arguments mkState {World Log}.
Arguments _last_block {World Log}.
Arguments node {World Log}.
Arguments trace {World Log}.
Arguments init {World Log}.
Arguments getLogs {World Log}.
Arguments block_specification_to_number {World Log}.
Arguments _do_get_new_entries {World Log}.
Arguments get_new_entries_loop {World Log}.
Arguments get_new_entries {World Log}.
Arguments block_number_or_current {World Log}.
Arguments get_all_entries {World Log}.

(** *** Vocabulary for the record of RPC calls *)

(** The parameters of the log query for the chunk [from_block .. to_block]. *)
Definition chunk_params (filter_params : FilterParams)
    (from_block to_block : BlockNumber) : FilterParams :=
  set_toBlock (BlockNum to_block)
    (set_fromBlock (BlockNum from_block) filter_params).

(** The parameters of the log queries of a record, in order. *)
Fixpoint log_queries {Log} (ints : list (Interaction Log))
  : list FilterParams :=
  match ints with
  | [] => []
  | GetLogs p _ :: rest => p :: log_queries rest
  | _ :: rest => log_queries rest
  end.

(** The block range a log query asks for: both bounds are inclusive. *)
Definition query_range (p : FilterParams)
  : option BlockSpecification * option BlockSpecification :=
  (fromBlock p, toBlock p).

Definition answered {Log} (i : Interaction Log) : Prop :=
  match i with
  | GetLogs _ (inr _) | GetBlockNumber (inr _) | GetBlock _ (inr _) => True
  | _ => False
  end.

Definition failed {Log} (e : Exception) (i : Interaction Log) : Prop :=
  match i with
  | GetLogs _ (inl e') | GetBlockNumber (inl e') | GetBlock _ (inl e') =>
      e' = e
  | _ => False
  end.

(** The cursor left by a record of calls of [get_new_entries]: every
    answered log query moves it to the upper bound of its chunk. *)
Definition cursor_step {Log} (c : BlockNumber) (i : Interaction Log)
  : BlockNumber :=
  match i with
  | GetLogs p (inr _) =>
      match toBlock p with Some (BlockNum n) => n | _ => c end
  | _ => c
  end.

Definition cursor_after {Log} (c : BlockNumber)
    (ints : list (Interaction Log)) : BlockNumber :=
  fold_left cursor_step ints c.

(** What the node answered to [eth_blockNumber] in a record of calls. *)
Fixpoint asked_block_number {Log} (ints : list (Interaction Log))
  : option BlockNumber :=
  match ints with
  | [] => None
  | GetBlockNumber (inr n) :: _ => Some n
  | _ :: rest => asked_block_number rest
  end.

(** The block number a call of [get_all_entries] works with: its argument
    or, when that is None or 0, what the node answered during the call
    (nothing, when that lookup failed). *)
Definition block_number_used {Log} (block_number : option BlockNumber)
    (ints : list (Interaction Log)) : option BlockNumber :=
  match block_number with
  | Some n => if n =? 0 then asked_block_number ints else Some n
  | None => asked_block_number ints
  end.

(** The filter range as [get_all_entries] asks for it: the filter's own
    parameters, with a "latest" or "pending" [toBlock] replaced by the
    block number of the call. *)
Definition full_range_query (filter_params : FilterParams)
    (block_number : BlockNumber) : FilterParams :=
  if is_latest_or_pending (toBlock filter_params)
  then set_toBlock (BlockNum block_number) filter_params
  else filter_params.

(** [c] is the height of block [b]: [b] itself when it is a number, and
    otherwise what the node answered for [b] in the record. *)
Definition resolves_to {Log} (ints : list (Interaction Log))
    (b : BlockSpecification) (c : BlockNumber) : Prop :=
  match b with
  | BlockNum n => c = n
  | _ => In (GetBlock b (inr c)) ints
  end.

(** [c] is the resolved [toBlock] of the query, or the block number of the
    call when the query has no [toBlock] or a falsy one. *)
Definition resolved_toBlock_or_block_number {Log}
    (filter_params : FilterParams) (block_number : BlockNumber)
    (ints : list (Interaction Log)) (c : BlockNumber) : Prop :=
  match toBlock (full_range_query filter_params block_number) with
  | Some to_block =>
      if truthy to_block then resolves_to ints to_block c
      else c = block_number
  | None => c = block_number
  end.

(** A sequence of [get_new_entries] calls on one filter instance. *)
Definition get_new_entries_seq {World Log} (web3 : Web3 World Log)
    (filter_params : FilterParams) (targets : list BlockNumber)
    (s : State World Log) : State World Log :=
  fold_left (fun s target => snd (get_new_entries web3 filter_params target s))
    targets s.

(** The chunks the loop of [get_new_entries] walks through: the first [n]
    of them, as pairs of inclusive bounds. *)
Fixpoint chunks (n : nat) (from_block target : BlockNumber)
  : list (BlockNumber * BlockNumber) :=
  match n with
  | O => []
  | S n =>
      (from_block, Z.min (from_block + FILTER_MAX_BLOCK_RANGE) target)
      :: chunks n (from_block + FILTER_MAX_BLOCK_RANGE) target
  end.

(** The log query of a chunk. *)
Definition chunk_query (filter_params : FilterParams)
    (c : BlockNumber * BlockNumber) : FilterParams :=
  chunk_params filter_params (fst c) (snd c).

(** How many times the loop condition holds. *)
Definition chunk_count (from_block target : BlockNumber) : nat :=
  if from_block <=? target
  then Z.to_nat ((target - from_block) / FILTER_MAX_BLOCK_RANGE + 1)
  else O.

(** The block [get_new_entries] starts from when the filter's [fromBlock]
    is absent or a number (no RPC call is needed to resolve it). *)
Definition first_block (filter_params : FilterParams) (cursor : BlockNumber)
  : option BlockNumber :=
  match fromBlock filter_params with
  | None => Some (Z.max GENESIS_BLOCK_NUMBER (cursor + 1))
  | Some (BlockNum n) => Some (Z.max n (cursor + 1))
  | Some _ => None
  end.

(** The entries of the answered log queries of a record, in order. *)
Fixpoint answers {Log} (ints : list (Interaction Log)) : list Log :=
  match ints with
  | [] => []
  | GetLogs _ (inr entries) :: rest => entries ++ answers rest
  | _ :: rest => answers rest
  end.

End Filters.

(** ** blockchain/state.py *)

Fixpoint bytes_eqb (a b : bytes) : bool :=
  match a, b with
  | [], [] => true
  | x :: a', y :: b' => Byte.eqb x y && bytes_eqb a' b'
  | _, _ => false
  end.

(** ** filters.py: the filter parameters of a channel, and [decode_event] *)

Module FilterHelpers.
Import Filters.

(** [raiden_contracts.constants]: the name of the token network contract
    and the name of the event a channel is opened with
    ([ChannelEvent.OPENED]). *)
Definition CONTRACT_TOKEN_NETWORK : string := "TokenNetwork".
Definition ChannelEvent_OPENED : string := "ChannelOpened".

Definition set_topics (t : list (option bytes)) (p : FilterParams) :=
  mkFilterParams (fromBlock p) (toBlock p) (address p) t.

Section FilterArgs.

(** The contract manager and the web3 helper are collaborators:
    [contract_manager.get_event_abi(contract_name, event_name)] and
    [construct_event_filter_params(event_abi, contract_address,
    argument_filters, fromBlock, toBlock)], of which the second component
    of the result is kept; [to_checksum_address] is the one of eth_utils.
    The only argument filter is the channel identifier.  The block bounds
    are always passed here; Python defaults them to
    [GENESIS_BLOCK_NUMBER] and "latest". *)
Variable EventABI : Type.
Variable get_event_abi : string -> string -> Exception + EventABI.
Variable to_checksum_address : bytes -> string.
Variable construct_event_filter_params :
  EventABI -> string -> Z -> BlockSpecification -> BlockSpecification ->
  Exception + FilterParams.

Definition get_filter_args_for_specific_event_from_channel
    (token_network_address : bytes) (channel_identifier : Z)
    (event_name : string) (from_block to_block : BlockSpecification)
  : Outcome FilterParams :=
  if (event_name =? "")%string then
    Raise (ValueError "Event name must be given")
  else
    match get_event_abi CONTRACT_TOKEN_NETWORK event_name with
    | inl e => Raise e
    | inr event_abi =>
        match construct_event_filter_params event_abi
                (to_checksum_address token_network_address)
                channel_identifier from_block to_block with
        | inl e => Raise e
        | inr event_filter_params => Return event_filter_params
        end
    end.

(** [event_filter_params["topics"] = [None, event_filter_params["topics"][1]]]:
    indexing a list of fewer than two topics raises [IndexError]. *)
Definition get_filter_args_for_all_events_from_channel
    (token_network_address : bytes) (channel_identifier : Z)
    (from_block to_block : BlockSpecification) : Outcome FilterParams :=
  match get_filter_args_for_specific_event_from_channel
          token_network_address channel_identifier ChannelEvent_OPENED
          from_block to_block with
  | Return event_filter_params =>
      match topics event_filter_params with
      | _ :: topic1 :: _ =>
          Return (set_topics [None; topic1] event_filter_params)
      | _ => Raise (OtherError "IndexError")
      end
  | Raise e => Raise e
  | OutOfFuel => OutOfFuel
  end.

End FilterArgs.

(** *** Decoding a raw log *)

(** The first topic of a raw log as the node hands it over: a hex string,
    an integer, or bytes. *)
Inductive Topic : Type :=
| TopicStr (s : string)
| TopicInt (n : Z)
| TopicBytes (b : bytes).

(** The raw log, a dict the caller owns: its ["topics"] list and the rest
    of its items. *)
Record RawLog (Rest : Type) : Type := mkRawLog {
  log_topics : list Topic;
  log_rest : Rest
}.
Arguments mkRawLog {Rest}.
Arguments log_topics {Rest}.
Arguments log_rest {Rest}.

Section DecodeEvent.

(** An entry of a contract ABI is read through its ["type"]; the other
    helpers are the ones of eth_utils and web3, and [hex] is Python's. *)
Variable ABIEntry : Type.
Variable abi_type : ABIEntry -> string.
Variable Rest : Type.
Variable EventData : Type.
Variable decode_hex : string -> Exception + bytes.
Variable hex : Z -> string.
Variable event_abi_to_log_topic : ABIEntry -> bytes.
Variable get_event_data : ABIEntry -> RawLog Rest -> Exception + EventData.

(** [filter_by_type("event", abi)] *)
Definition filter_by_type (type : string) (abi : list ABIEntry)
  : list ABIEntry :=
  filter (fun entry => (abi_type entry =? type)%string) abi.

(** [{event_abi_to_log_topic(e): e for e in events}[event_id]]: of several
    entries with one key, the dict keeps the last. *)
Fixpoint topic_to_event_abi (events : list ABIEntry) (event_id : bytes)
  : option ABIEntry :=
  match events with
  | [] => None
  | event_abi :: rest =>
      match topic_to_event_abi rest event_id with
      | Some later => Some later
      | None =>
          if bytes_eqb (event_abi_to_log_topic event_abi) event_id
          then Some event_abi else None
      end
  end.

Definition lift {A} (r : Exception + A) : M (RawLog Rest) A :=
  fun log =>
    (match r with inl e => Raise e | inr a => Return a end, log).

(** [log["topics"][0]] *)
Definition first_topic : M (RawLog Rest) Topic :=
  fun log =>
    match log_topics log with
    | [] => (Raise (OtherError "IndexError"), log)
    | t :: _ => (Return t, log)
    end.

(** [log["topics"][0] = b]: the caller's dict is changed. *)
Definition set_first_topic (b : bytes) : M (RawLog Rest) unit :=
  fun log =>
    (Return tt,
     mkRawLog (TopicBytes b :: tl (log_topics log)) (log_rest log)).

Definition decode_event (abi : list ABIEntry) : M (RawLog Rest) EventData :=
  t <- first_topic ;;
  event_id <-
    match t with
    | TopicStr s =>
        b <- lift (decode_hex s) ;;
        set_first_topic b ;;;
        ret b
    | TopicInt n =>
        b <- lift (decode_hex (hex n)) ;;
        set_first_topic b ;;;
        ret b
    | TopicBytes b => ret b
    end ;;
  let events := filter_by_type "event" abi in
  match topic_to_event_abi events event_id with
  | None => raise (KeyError event_id)
  | Some event_abi =>
      fun log =>
        (match get_event_data event_abi log with
         | inl e => Raise e
         | inr data => Return data
         end, log)
  end.

End DecodeEvent.

Arguments decode_event {ABIEntry} abi_type {Rest EventData}.
Arguments filter_by_type {ABIEntry}.
Arguments topic_to_event_abi {ABIEntry}.

End FilterHelpers.

Module BlockchainState.

Definition Address := bytes.
Definition TokenNetworkAddress := bytes.
Definition PaymentNetworkAddress := bytes.
Definition TokenAddress := bytes.
Definition Locksroot := bytes.
Definition ChainID := Z.
Definition ChannelID := Z.
Definition Balance := Z.

Record CanonicalIdentifier : Type := mkCanonicalIdentifier {
  chain_identifier : ChainID;
  token_network_address : TokenNetworkAddress;
  channel_identifier : ChannelID
}.

Record ChannelSettleState : Type := mkChannelSettleState {
  settle_canonical_identifier : CanonicalIdentifier;
  our_locksroot : Locksroot;
  partner_locksroot : Locksroot
}.

Record NewChannelDetails : Type := mkNewChannelDetails {
  new_chain_id : ChainID;
  payment_network_address : PaymentNetworkAddress;
  new_token_address : TokenAddress;
  our_address : Address;
  our_initial_balance : Balance;
  partner_address : Address;
  partner_initial_balance : Balance
}.

(** [DecodedEvent]: [event_data] is a dict with the keys ["args"] and
    ["block_hash"].  An event is decoded against the ABI of its kind before
    it reaches a resolver, so ["args"] is a record of the arguments of that
    kind; only the arguments the resolvers read are kept. *)
Record EventData (Args : Type) : Type := mkEventData {
  args : Args;
  block_hash : bytes
}.
Arguments mkEventData {Args}.
Arguments args {Args}.
Arguments block_hash {Args}.

Record DecodedEvent (Args : Type) : Type := mkDecodedEvent {
  chain_id : ChainID;
  originating_contract : Address;
  event_data : EventData Args
}.
Arguments mkDecodedEvent {Args}.
Arguments chain_id {Args}.
Arguments originating_contract {Args}.
Arguments event_data {Args}.

(** ChannelSettled, ChannelClosed and NonClosingBalanceProofUpdated. *)
Record ChannelArgs : Type := mkChannelArgs {
  args_channel_identifier : ChannelID
}.

(** ChannelOpened. *)
Record ChannelNewArgs : Type := mkChannelNewArgs {
  new_channel_identifier : ChannelID;
  participant1 : Address;
  participant2 : Address
}.

(** ChannelUnlocked. *)
Record ChannelBatchUnlockArgs : Type := mkChannelBatchUnlockArgs {
  receiver : Address;
  sender : Address;
  locksroot : Locksroot
}.

(** What [PaymentChannel.detail] returns, as far as it is read. *)
Record ParticipantDetails : Type := mkParticipantDetails {
  address : Address;
  deposit : Z
}.
Record ParticipantsDetails : Type := mkParticipantsDetails {
  our_details : ParticipantDetails;
  partner_details : ParticipantDetails
}.
Record ChannelDetails : Type := mkChannelDetails {
  token_address : TokenAddress;
  participants_data : ParticipantsDetails
}.

(** The local state and its views ([raiden.transfer.state],
    [raiden.transfer.views]) are collaborators of this module: their types
    are abstract and the views are whatever functions the caller supplies. *)
Record LocalState : Type := mkLocalState {
  ChainState : Type;
  NettingChannelState : Type;
  TokenNetworkState : Type;
  TokenNetworkRegistryState : Type;
  (** [chain_state.chain_id], [chain_state.our_address] *)
  chain_state_chain_id : ChainState -> ChainID;
  chain_state_our_address : ChainState -> Address;
  (** [channel_state.canonical_identifier],
      [channel_state.our_state.address],
      [channel_state.partner_state.address] *)
  canonical_identifier : NettingChannelState -> CanonicalIdentifier;
  our_state_address : NettingChannelState -> Address;
  partner_state_address : NettingChannelState -> Address;
  (** [token_network_state.partneraddresses_to_channelidentifiers], a dict
      from partner address to the list of channel identifiers *)
  partneraddresses_to_channelidentifiers :
    TokenNetworkState -> Address -> option (list ChannelID);
  (** [token_network_registry.address] *)
  registry_address : TokenNetworkRegistryState -> PaymentNetworkAddress;
  get_channelstate_by_canonical_identifier :
    ChainState -> CanonicalIdentifier -> option NettingChannelState;
  get_token_network_by_address :
    ChainState -> TokenNetworkAddress -> option TokenNetworkState;
  get_token_network_registry_by_token_network_address :
    ChainState -> TokenNetworkAddress -> option TokenNetworkRegistryState
}.

(** The persisted history ([raiden.storage.restore]): the two lookups are
    collaborators as well.  A record is read only through
    [record.data.balance_proof.canonical_identifier]. *)
Record History : Type := mkHistory {
  SerializedSQLiteStorage : Type;
  StorageRecord : Type;
  data_balance_proof_canonical_identifier :
    StorageRecord -> CanonicalIdentifier;
  (** arguments: storage, canonical_identifier, locksroot, sender *)
  get_state_change_with_balance_proof_by_locksroot :
    SerializedSQLiteStorage -> CanonicalIdentifier -> Locksroot -> Address ->
    option StorageRecord;
  (** arguments: storage, canonical_identifier, locksroot, recipient *)
  get_event_with_balance_proof_by_locksroot :
    SerializedSQLiteStorage -> CanonicalIdentifier -> Locksroot -> Address ->
    option StorageRecord
}.

(** [eth_utils.to_hex] and [eth_utils.to_checksum_address] *)
Record EthUtils : Type := mkEthUtils {
  to_hex : bytes -> string;
  to_checksum_address : Address -> string
}.

(** The chain node behind [chain_service]: an arbitrary state [World] and
    the calls the resolvers make.  Each may raise and may change the node. *)
Record BlockChainService (World : Type) : Type := mkBlockChainService {
  PaymentChannel : Type;
  (** [get_onchain_locksroots(chain, canonical_identifier, participant1,
      participant2, block_identifier)] *)
  onchain_locksroots :
    CanonicalIdentifier -> Address -> Address -> BlockSpecification ->
    World -> (Exception + Locksroot * Locksroot) * World;
  (** [chain_service.payment_channel(canonical_identifier)] *)
  new_payment_channel :
    CanonicalIdentifier -> World -> (Exception + PaymentChannel) * World;
  (** [channel_proxy.detail(block_identifier)] *)
  channel_detail :
    PaymentChannel -> BlockSpecification ->
    World -> (Exception + ChannelDetails) * World
}.
Arguments PaymentChannel {World}.
Arguments onchain_locksroots {World}.
Arguments new_payment_channel {World}.
Arguments channel_detail {World}.

Section Resolvers.

Variable L : LocalState.
Variable H : History.
Variable U : EthUtils.
Variable World : Type.
Variable chain_service : BlockChainService World.

(** Every on-chain query is recorded together with its answer. *)
Inductive Query : Type :=
| LocksrootsQuery (c : CanonicalIdentifier) (p1 p2 : Address)
    (block_identifier : BlockSpecification)
    (r : Exception + Locksroot * Locksroot)
| PaymentChannelQuery (c : CanonicalIdentifier)
    (r : Exception + PaymentChannel chain_service)
| DetailQuery (proxy : PaymentChannel chain_service)
    (block_identifier : BlockSpecification)
    (r : Exception + ChannelDetails).

(** The state a resolver with a [chain_service] runs in: the node and the
    record of queries so far (newest last). *)
Record Chain : Type := mkChain {
  chain_node : World;
  queries : list Query
}.

Definition answer {A} (r : Exception + A) : Outcome A :=
  match r with inl e => Raise e | inr a => Return a end.

Definition get_onchain_locksroots (c : CanonicalIdentifier)
    (p1 p2 : Address) (block_identifier : BlockSpecification)
  : M Chain (Locksroot * Locksroot) :=
  fun s =>
    let (r, w) :=
      onchain_locksroots chain_service c p1 p2 block_identifier
        (chain_node s) in
    (answer r,
     mkChain w (queries s ++ [LocksrootsQuery c p1 p2 block_identifier r])).

Definition payment_channel (c : CanonicalIdentifier)
  : M Chain (PaymentChannel chain_service) :=
  fun s =>
    let (r, w) := new_payment_channel chain_service c (chain_node s) in
    (answer r, mkChain w (queries s ++ [PaymentChannelQuery c r])).

Definition detail (proxy : PaymentChannel chain_service)
    (block_identifier : BlockSpecification) : M Chain ChannelDetails :=
  fun s =>
    let (r, w) :=
      channel_detail chain_service proxy block_identifier (chain_node s) in
    (answer r,
     mkChain w (queries s ++ [DetailQuery proxy block_identifier r])).

Definition get_contractreceivechannelsettled_data_from_event
    (chain_state : ChainState L) (event : DecodedEvent ChannelArgs)
    (latest_confirmed_block : BlockNumber)
  : M Chain (option ChannelSettleState) :=
  let data := event_data event in
  let token_network_address := originating_contract event in
  let channel_identifier := args_channel_identifier (args data) in
  let block_hash := block_hash data in
  let canonical_identifier :=
    mkCanonicalIdentifier (chain_state_chain_id L chain_state)
      token_network_address channel_identifier in
  match get_channelstate_by_canonical_identifier L chain_state
          canonical_identifier with
  | None => ret None
  | Some channel_state =>
      roots <-
        try_except_ValueError
          (get_onchain_locksroots
             (BlockchainState.canonical_identifier L channel_state)
             (our_state_address L channel_state)
             (partner_state_address L channel_state)
             (BlockHash block_hash))
          (get_onchain_locksroots
             (BlockchainState.canonical_identifier L channel_state)
             (our_state_address L channel_state)
             (partner_state_address L channel_state)
             (BlockNum latest_confirmed_block)) ;;
      ret (Some (mkChannelSettleState canonical_identifier
                   (fst roots) (snd roots)))
  end.

Definition get_contractreceiveupdatetransfer_data_from_event
    (chain_state : ChainState L) (event : DecodedEvent ChannelArgs)
  : option (NettingChannelState L) :=
  let data := event_data event in
  let args := args data in
  let channel_identifier := args_channel_identifier args in
  let channel_state :=
    get_channelstate_by_canonical_identifier L chain_state
      (mkCanonicalIdentifier (chain_state_chain_id L chain_state)
         (originating_contract event) channel_identifier) in
  channel_state.

(** The [for ... break] loop of the batch-unlock resolver: the value of
    [canonical_identifier] when the loop is left. *)
Fixpoint find_unlock_channel (storage : SerializedSQLiteStorage H)
    (chain_identifier : ChainID)
    (token_network_address : TokenNetworkAddress)
    (args : ChannelBatchUnlockArgs) (partner : Address)
    (channel_identifiers : list ChannelID) : option CanonicalIdentifier :=
  match channel_identifiers with
  | [] => None
  | channel_identifier :: rest =>
      if bytes_eqb partner (sender args) then
        match get_state_change_with_balance_proof_by_locksroot H storage
                (mkCanonicalIdentifier chain_identifier
                   token_network_address channel_identifier)
                (locksroot args) partner with
        | Some state_change_record =>
            Some (data_balance_proof_canonical_identifier H
                    state_change_record)
        | None =>
            find_unlock_channel storage chain_identifier
              token_network_address args partner rest
        end
      else if bytes_eqb partner (receiver args) then
        match get_event_with_balance_proof_by_locksroot H storage
                (mkCanonicalIdentifier chain_identifier
                   token_network_address channel_identifier)
                (locksroot args) partner with
        | Some event_record =>
            Some (data_balance_proof_canonical_identifier H event_record)
        | None =>
            find_unlock_channel storage chain_identifier
              token_network_address args partner rest
        end
      else
        find_unlock_channel storage chain_identifier
          token_network_address args partner rest
  end.

Definition unlock_msg (locksroot : Locksroot) (partner : Address)
  : string :=
  ("Can not resolve channel_id for unlock with locksroot "
   ++ to_hex U locksroot ++ " and partner "
   ++ to_checksum_address U partner ++ ".")%string.

(** The resolver makes no on-chain query and mutates nothing: it either
    returns or raises.  The two [assert] statements raise [AssertionError];
    indexing [partneraddresses_to_channelidentifiers] with a partner it
    has no entry for raises [KeyError]. *)
Definition get_contractreceivechannelbatchunlock_data_from_event
    (chain_state : ChainState L) (storage : SerializedSQLiteStorage H)
    (event : DecodedEvent ChannelBatchUnlockArgs)
  : Outcome (option CanonicalIdentifier) :=
  let token_network_address := originating_contract event in
  let data := event_data event in
  let args := args data in
  let participant1 := receiver args in
  let participant2 := sender args in
  let locksroot := locksroot args in
  match get_token_network_by_address L chain_state
          token_network_address with
  | None => Raise (AssertionError None)
  | Some token_network_state =>
      let resolve (partner : Address) :=
        match partneraddresses_to_channelidentifiers L
                token_network_state partner with
        | None => Raise (KeyError partner)
        | Some channel_identifiers =>
            match find_unlock_channel storage
                    (chain_state_chain_id L chain_state)
                    token_network_address args partner
                    channel_identifiers with
            | None =>
                Raise (AssertionError
                         (Some (unlock_msg locksroot partner)))
            | Some canonical_identifier =>
                Return (Some canonical_identifier)
            end
        end in
      if bytes_eqb participant1 (chain_state_our_address L chain_state)
      then resolve participant2
      else if bytes_eqb participant2
                (chain_state_our_address L chain_state)
      then resolve participant1
      else Return None
  end.

Definition get_contractreceivechannelnew_data_from_event
    (chain_state : ChainState L) (event : DecodedEvent ChannelNewArgs)
    (latest_confirmed_block : BlockNumber)
  : M Chain (option NewChannelDetails) :=
  let token_network_address := originating_contract event in
  let data := event_data event in
  let args := args data in
  let block_hash := block_hash data in
  let participant1 := participant1 args in
  let participant2 := participant2 args in
  let is_participant :=
    bytes_eqb (chain_state_our_address L chain_state) participant1
    || bytes_eqb (chain_state_our_address L chain_state) participant2 in
  if negb is_participant then ret None
  else
    channel_proxy <-
      payment_channel
        (mkCanonicalIdentifier (chain_id event) token_network_address
           (new_channel_identifier args)) ;;
    channel_details <-
      try_except_ValueError
        (detail channel_proxy (BlockHash block_hash))
        (detail channel_proxy (BlockNum latest_confirmed_block)) ;;
    match get_token_network_registry_by_token_network_address L
            chain_state token_network_address with
    | None => raise (AssertionError (Some "Token network missing"))
    | Some token_network_registry =>
        let our_details :=
          our_details (participants_data channel_details) in
        let partner_details :=
          partner_details (participants_data channel_details) in
        ret (Some (mkNewChannelDetails
                     (chain_id event)
                     (registry_address L token_network_registry)
                     (token_address channel_details)
                     (address our_details)
                     (deposit our_details)
                     (address partner_details)
                     (deposit partner_details)))
    end.

Definition get_contractreceivechannelclosed_data_from_event
    (chain_state : ChainState L) (event : DecodedEvent ChannelArgs)
  : option CanonicalIdentifier :=
  let token_network_address := originating_contract event in
  let data := event_data event in
  let args := args data in
  let channel_identifier := args_channel_identifier args in
  let channel_state :=
    get_channelstate_by_canonical_identifier L chain_state
      (mkCanonicalIdentifier (chain_state_chain_id L chain_state)
         token_network_address channel_identifier) in
  match channel_state with
  | Some channel_state =>
      Some (BlockchainState.canonical_identifier L channel_state)
  | None => None
  end.

(** *** Vocabulary for the properties *)

(** The canonical identifier a resolver derives from an event that carries
    a channel identifier. *)
Definition derived_identifier (chain_state : ChainState L)
    (event : DecodedEvent ChannelArgs) : CanonicalIdentifier :=
  mkCanonicalIdentifier (chain_state_chain_id L chain_state)
    (originating_contract event)
    (args_channel_identifier (args (event_data event))).

(** The partner of a batch-unlock event: the other side of the one that
    is the local node, if any. *)
Definition unlock_partner (chain_state : ChainState L)
    (event : DecodedEvent ChannelBatchUnlockArgs) : option Address :=
  let a := args (event_data event) in
  if bytes_eqb (receiver a) (chain_state_our_address L chain_state)
  then Some (sender a)
  else if bytes_eqb (sender a) (chain_state_our_address L chain_state)
  then Some (receiver a)
  else None.

(** The canonical identifier of a candidate channel of the event. *)
Definition candidate (chain_state : ChainState L)
    (event : DecodedEvent ChannelBatchUnlockArgs)
    (channel_identifier : ChannelID) : CanonicalIdentifier :=
  mkCanonicalIdentifier (chain_state_chain_id L chain_state)
    (originating_contract event) channel_identifier.

(** The stored balance-proof record that explains the event for one
    candidate channel: a state change received from the partner when the
    partner sent the unlock, an event sent to the partner otherwise. *)
Definition matching_record (chain_state : ChainState L)
    (storage : SerializedSQLiteStorage H)
    (event : DecodedEvent ChannelBatchUnlockArgs) (partner : Address)
    (channel_identifier : ChannelID) : option (StorageRecord H) :=
  let a := args (event_data event) in
  if bytes_eqb partner (sender a) then
    get_state_change_with_balance_proof_by_locksroot H storage
      (candidate chain_state event channel_identifier) (locksroot a)
      partner
  else
    get_event_with_balance_proof_by_locksroot H storage
      (candidate chain_state event channel_identifier) (locksroot a)
      partner.

End Resolvers.

Arguments Query {World}.
Arguments LocksrootsQuery {World chain_service}.
Arguments PaymentChannelQuery {World chain_service}.
Arguments DetailQuery {World chain_service}.
Arguments Chain {World}.
Arguments mkChain {World chain_service}.
Arguments chain_node {World chain_service}.
Arguments queries {World chain_service}.
Arguments get_contractreceivechannelsettled_data_from_event L {World}.
Arguments get_contractreceivechannelnew_data_from_event L {World}.

End BlockchainState.

(** ** Concrete nodes and local states used to run the code *)

Module Examples.
Import Filters.

(** No [fromBlock], no [toBlock]. *)
Definition plain_params : FilterParams := mkFilterParams None None [] [].

(** A node that answers every log query with no entries; its current block
    is 200000. *)
Definition quiet_node : Web3 unit string :=
  mkWeb3 (fun _ w => (inr [], w))
         (fun w => (inr 200000, w))
         (fun _ w => (inr 200000, w)).

(** A node that answers its first log query and times out on every later
    one; its state counts the log queries received. *)
Definition flaky_node : Web3 nat string :=
  mkWeb3 (fun _ n =>
            match n with
            | O => (inr ["entry"], S n)
            | _ => (inl (OtherError "ReadTimeout"), S n)
            end)
         (fun n => (inr 200000, n))
         (fun _ n => (inr 200000, n)).

(** A node that answers its first log query with one entry, times out on
    the second, and answers every later one with no entries; its state
    counts the log queries received. *)
Definition hiccup_node : Web3 nat string :=
  mkWeb3 (fun _ n =>
            match n with
            | O => (inr ["entry"], S n)
            | S O => (inl (OtherError "ReadTimeout"), S n)
            | _ => (inr [], S n)
            end)
         (fun n => (inr 200000, n))
         (fun _ n => (inr 200000, n)).

(** *** A local state, a history and a chain service *)

Import BlockchainState.

Definition node_A : Address := [Byte.x0a].
Definition node_B : Address := [Byte.x0b].
Definition node_C : Address := [Byte.x0c].
Definition node_D : Address := [Byte.x0d].
Definition TN1 : TokenNetworkAddress := [Byte.x01].
Definition TN2 : TokenNetworkAddress := [Byte.x02].
Definition REGISTRY1 : PaymentNetworkAddress := [Byte.xf1].
Definition TOKEN1 : TokenAddress := [Byte.xe1].
Definition ROOT1 : Locksroot := [Byte.x51].
Definition ROOT2 : Locksroot := [Byte.x52].
Definition HASH1 : bytes := [Byte.xb1].

Definition canonical_identifier_eqb (a b : CanonicalIdentifier) : bool :=
  (chain_identifier a =? chain_identifier b)
  && bytes_eqb (token_network_address a) (token_network_address b)
  && (channel_identifier a =? channel_identifier b).

Fixpoint assoc {V : Type} (k : bytes) (l : list (bytes * V)) : option V :=
  match l with
  | [] => None
  | (k', v) :: rest => if bytes_eqb k k' then Some v else assoc k rest
  end.

Record ExampleChannel : Type := mkExampleChannel {
  ch_canonical_identifier : CanonicalIdentifier;
  ch_our_address : Address;
  ch_partner_address : Address
}.

Record ExampleChainState : Type := mkExampleChainState {
  ex_chain_id : ChainID;
  ex_our_address : Address;
  ex_channels : list ExampleChannel;
  ex_token_networks :
    list (TokenNetworkAddress * list (Address * list ChannelID));
  ex_registries : list (TokenNetworkAddress * PaymentNetworkAddress)
}.

Definition example_local : LocalState :=
  mkLocalState ExampleChainState ExampleChannel
    (list (Address * list ChannelID)) PaymentNetworkAddress
    ex_chain_id ex_our_address
    ch_canonical_identifier ch_our_address ch_partner_address
    (fun token_network partner => assoc partner token_network)
    (fun registry => registry)
    (fun cs c =>
       find (fun ch => canonical_identifier_eqb (ch_canonical_identifier ch) c)
         (ex_channels cs))
    (fun cs a => assoc a (ex_token_networks cs))
    (fun cs a => assoc a (ex_registries cs)).

Definition channel_7 : ExampleChannel :=
  mkExampleChannel (mkCanonicalIdentifier 1 TN1 7) node_A node_B.

(** Node A on chain 1: token network TN1 of registry REGISTRY1, with the
    channels 5, 7 and 9 to partner B; channel 7 is still in the state. *)
Definition state_A : ExampleChainState :=
  mkExampleChainState 1 node_A [channel_7]
    [(TN1, [(node_B, [5; 7; 9])])] [(TN1, REGISTRY1)].

(** Node A before it has learnt of any token network. *)
Definition state_A_empty : ExampleChainState :=
  mkExampleChainState 1 node_A [] [] [].

(** A stored balance proof: channel, locksroot, and the other side. *)
Definition StoredProof : Type := (CanonicalIdentifier * Locksroot * Address).

Record ExampleStorage : Type := mkExampleStorage {
  stored_state_changes : list StoredProof;
  stored_events : list StoredProof
}.

Definition lookup_proof (l : list StoredProof) (c : CanonicalIdentifier)
    (root : Locksroot) (who : Address) : option CanonicalIdentifier :=
  option_map (fun x => fst (fst x))
    (find (fun x =>
             canonical_identifier_eqb (fst (fst x)) c
             && bytes_eqb (snd (fst x)) root && bytes_eqb (snd x) who) l).

Definition example_history : History :=
  mkHistory ExampleStorage CanonicalIdentifier (fun r => r)
    (fun st => lookup_proof (stored_state_changes st))
    (fun st => lookup_proof (stored_events st)).

(** B's balance proof with locksroot ROOT1 was received on channel 7. *)
Definition storage_7 : ExampleStorage :=
  mkExampleStorage [(mkCanonicalIdentifier 1 TN1 7, ROOT1, node_B)] [].

Definition hex_digit (n : N) : ascii :=
  match n with
  | 0%N => "0" | 1%N => "1" | 2%N => "2" | 3%N => "3" | 4%N => "4"
  | 5%N => "5" | 6%N => "6" | 7%N => "7" | 8%N => "8" | 9%N => "9"
  | 10%N => "a" | 11%N => "b" | 12%N => "c" | 13%N => "d" | 14%N => "e"
  | _ => "f"
  end%char.

Fixpoint hex (b : bytes) : string :=
  match b with
  | [] => EmptyString
  | x :: rest =>
      String (hex_digit (Byte.to_N x / 16))
        (String (hex_digit (Byte.to_N x mod 16)) (hex rest))
  end.

(** Hexadecimal with the 0x prefix; the checksum casing of addresses is
    left out. *)
Definition example_utils : EthUtils :=
  mkEthUtils (fun b => ("0x" ++ hex b)%string)
             (fun a => ("0x" ++ hex a)%string).

Definition details_AB : ChannelDetails :=
  mkChannelDetails TOKEN1
    (mkParticipantsDetails (mkParticipantDetails node_A 10)
                           (mkParticipantDetails node_B 20)).

(** A chain node that has pruned the state of every block but the latest
    confirmed ones: a query by block hash raises [ValueError], a query by
    block number is answered.  Its state counts the queries received. *)
Definition pruned_node : BlockChainService nat :=
  mkBlockChainService nat CanonicalIdentifier
    (fun _ _ _ block n =>
       match block with
       | BlockNum _ => (inr (ROOT1, ROOT2), S n)
       | _ => (inl (ValueError "missing trie node"), S n)
       end)
    (fun c n => (inr c, S n))
    (fun _ block n =>
       match block with
       | BlockNum _ => (inr details_AB, S n)
       | _ => (inl (ValueError "missing trie node"), S n)
       end).

Definition settled_7 : DecodedEvent ChannelArgs :=
  mkDecodedEvent 1 TN1 (mkEventData (mkChannelArgs 7) HASH1).

Definition settled_8 : DecodedEvent ChannelArgs :=
  mkDecodedEvent 1 TN1 (mkEventData (mkChannelArgs 8) HASH1).

(** ChannelNew for channel 7 between A (local) and B. *)
Definition opened_AB : DecodedEvent ChannelNewArgs :=
  mkDecodedEvent 1 TN1 (mkEventData (mkChannelNewArgs 7 node_A node_B) HASH1).

(** ChannelNew for a channel between C and D. *)
Definition opened_CD : DecodedEvent ChannelNewArgs :=
  mkDecodedEvent 1 TN1 (mkEventData (mkChannelNewArgs 8 node_C node_D) HASH1).

(** B unlocks towards A, locksroot ROOT1. *)
Definition unlock_BA : DecodedEvent ChannelBatchUnlockArgs :=
  mkDecodedEvent 1 TN1
    (mkEventData (mkChannelBatchUnlockArgs node_A node_B ROOT1) HASH1).

(** B unlocks towards A with a locksroot nothing stored explains. *)
Definition unlock_BA_unknown : DecodedEvent ChannelBatchUnlockArgs :=
  mkDecodedEvent 1 TN1
    (mkEventData (mkChannelBatchUnlockArgs node_A node_B ROOT2) HASH1).

(** C unlocks towards D. *)
Definition unlock_CD : DecodedEvent ChannelBatchUnlockArgs :=
  mkDecodedEvent 1 TN1
    (mkEventData (mkChannelBatchUnlockArgs node_D node_C ROOT1) HASH1).

(** A chain node that has every block, and answers every query. *)
Definition archive_node : BlockChainService nat :=
  mkBlockChainService nat CanonicalIdentifier
    (fun _ _ _ _ n => (inr (ROOT1, ROOT2), S n))
    (fun c n => (inr c, S n))
    (fun _ _ n => (inr details_AB, S n)).

(** A chain node that hands out proxies and times out on every query of
    the chain's state. *)
Definition slow_node : BlockChainService nat :=
  mkBlockChainService nat CanonicalIdentifier
    (fun _ _ _ _ n => (inl (OtherError "ReadTimeout"), S n))
    (fun c n => (inr c, S n))
    (fun _ _ n => (inl (OtherError "ReadTimeout"), S n)).

(** A chain node on which no channel can be found. *)
Definition no_channel_node : BlockChainService nat :=
  mkBlockChainService nat CanonicalIdentifier
    (fun _ _ _ _ n => (inl (ValueError "missing trie node"), S n))
    (fun _ n => (inl (ValueError "Channel is non-existing."), S n))
    (fun _ _ n => (inl (ValueError "missing trie node"), S n)).

(** B's balance proofs with locksroot ROOT1 were received on the channels
    7 and 9. *)
Definition storage_7_9 : ExampleStorage :=
  mkExampleStorage
    [(mkCanonicalIdentifier 1 TN1 9, ROOT1, node_B);
     (mkCanonicalIdentifier 1 TN1 7, ROOT1, node_B)] [].

(** *** A contract ABI and a raw log *)

Import FilterHelpers.

Record ExampleABIEntry : Type := mkExampleABIEntry {
  entry_type : string;
  entry_name : string;
  entry_topic : bytes
}.

(** Two event entries with the topic 0xaa (an overloaded event) around a
    function and another event. *)
Definition example_abi : list ExampleABIEntry :=
  [ mkExampleABIEntry "event" "ChannelOpened" [Byte.xaa];
    mkExampleABIEntry "function" "openChannel" [Byte.xbb];
    mkExampleABIEntry "event" "ChannelClosed" [Byte.xcc];
    mkExampleABIEntry "event" "ChannelOpenedV2" [Byte.xaa] ].

(** The value of a hexadecimal digit, from its character code. *)
Definition hex_value (c : ascii) : option N :=
  let code := N_of_ascii c in
  if ((48 <=? code) && (code <=? 57))%N then Some (code - 48)%N
  else if ((97 <=? code) && (code <=? 102))%N then Some (code - 87)%N
  else None.

Fixpoint unhex (s : string) : option bytes :=
  match s with
  | EmptyString => Some []
  | String a (String b rest) =>
      match hex_value a, hex_value b, unhex rest with
      | Some x, Some y, Some r =>
          option_map (fun byte => byte :: r) (Byte.of_N (16 * x + y))
      | _, _, _ => None
      end
  | String _ EmptyString => None
  end.

(** Hexadecimal text, with or without the 0x prefix, to bytes. *)
Definition example_decode_hex (s : string) : Exception + bytes :=
  let digits :=
    match s with
    | String "0" (String "x" rest) => rest
    | _ => s
    end in
  match unhex digits with
  | Some b => inr b
  | None => inl (OtherError "binascii.Error")
  end.

Fixpoint hex_digits (fuel : nat) (n : N) (acc : string) : string :=
  match fuel with
  | O => acc
  | S fuel =>
      if (n <? 16)%N then String (hex_digit n) acc
      else hex_digits fuel (n / 16) (String (hex_digit (n mod 16)) acc)
  end.

(** Python's [hex] on a non-negative integer. *)
Definition example_hex (n : Z) : string :=
  ("0x" ++ hex_digits (S (N.size_nat (Z.to_N n))) (Z.to_N n) "")%string.

(** The decoded event: the name of the event and the topics it was decoded
    from. *)
Definition example_get_event_data (event_abi : ExampleABIEntry)
    (log : RawLog unit) : Exception + (string * list Topic) :=
  inr (entry_name event_abi, log_topics log).

Definition example_decode_event
  : list ExampleABIEntry -> M (RawLog unit) (string * list Topic) :=
  decode_event entry_type example_decode_hex example_hex entry_topic
    example_get_event_data.

Definition log_opened_str : RawLog unit :=
  mkRawLog [TopicStr "0xaa"; TopicBytes [Byte.x07]] tt.

Definition log_opened_int : RawLog unit :=
  mkRawLog [TopicInt 170; TopicBytes [Byte.x07]] tt.

Definition log_unknown : RawLog unit :=
  mkRawLog [TopicBytes [Byte.xdd]] tt.

(** A contract manager that knows the events of the token network, and a
    filter builder that puts the event's topic first and the channel
    identifier second. *)
Definition example_get_event_abi (contract event_name : string)
  : Exception + ExampleABIEntry :=
  if (contract =? "TokenNetwork")%string then
    match find (fun e => (entry_name e =? event_name)%string) example_abi with
    | Some e => inr e
    | None => inl (KeyError [])
    end
  else inl (KeyError []).

Definition example_construct_event_filter_params
    (event_abi : ExampleABIEntry) (contract_address : string)
    (channel_identifier : Z) (from_block to_block : BlockSpecification)
  : Exception + Filters.FilterParams :=
  inr (Filters.mkFilterParams (Some from_block) (Some to_block) TN1
         [Some (entry_topic event_abi);
          Some [Byte.x00; match Byte.of_N (Z.to_N channel_identifier) with
                          | Some b => b
                          | None => Byte.xff
                          end];
          None]).

End Examples.

(** * Properties of filters.py *)

Module FilterProperties.
Import Filters Examples.

Section Run.

Variables World Log : Type.
Variable web3 : Web3 World Log.

(** One chunk: the log query is recorded, and the cursor moves to the
    upper bound of the chunk exactly when the query is answered. *)
Lemma do_get_new_entries_run filter_params from_block to_block s :
  _do_get_new_entries web3 filter_params
    (BlockNum from_block) (BlockNum to_block) s =
  let p := chunk_params filter_params from_block to_block in
  let (r, w) := eth_getLogs web3 p (node s) in
  match r with
  | inl e =>
      (Raise e, mkState (_last_block s) w (trace s ++ [GetLogs p r]))
  | inr entries =>
      (Return entries, mkState to_block w (trace s ++ [GetLogs p r]))
  end.
Proof.
  unfold _do_get_new_entries, bind, getLogs, chunk_params. simpl.
  destruct (eth_getLogs web3 _ (node s)) as [[e | entries] w]; reflexivity.
Qed.

Lemma cursor_after_cons c (i : Interaction Log) ints :
  cursor_after c (i :: ints) = cursor_after (cursor_step c i) ints.
Proof. reflexivity. Qed.

(** The loop: what it records, where it leaves the cursor, and how it
    ends. *)
Lemma get_new_entries_loop_run fuel :
  forall filter_params target from_block result s out s',
    get_new_entries_loop web3 fuel filter_params target from_block result s
    = (out, s') ->
    exists ints,
      trace s' = trace s ++ ints /\
      _last_block s' = cursor_after (_last_block s) ints /\
      match out with
      | Return _ =>
          Forall answered ints /\
          (ints = [] -> target < from_block) /\
          (ints <> [] -> _last_block s' = target) /\
          (log_queries ints = [] -> ints = [])
      | Raise e =>
          exists ints0 i,
            ints = ints0 ++ [i] /\ failed e i /\ Forall answered ints0
      | OutOfFuel => True
      end.
Proof.
  induction fuel as [| fuel IH]; intros fp target from result s out s' Hrun;
    simpl in Hrun.
  - inversion Hrun; subst. exists []. rewrite app_nil_r. auto.
  - destruct (from <=? target) eqn:Hle.
    + unfold bind in Hrun. rewrite do_get_new_entries_run in Hrun.
      cbv zeta in Hrun.
      destruct (eth_getLogs web3 _ (node s)) as [[e | entries] w].
      * inversion Hrun; subst; clear Hrun.
        eexists [_]. simpl. repeat split.
        exists [], (GetLogs (chunk_params fp from
                               (Z.min (from + FILTER_MAX_BLOCK_RANGE)
                                  target)) (inl e)).
        simpl. auto.
      * apply IH in Hrun. destruct Hrun as (ints & Htr & Hcur & Hout).
        simpl in Htr, Hcur.
        exists (GetLogs (chunk_params fp from
                           (Z.min (from + FILTER_MAX_BLOCK_RANGE) target))
                  (inr entries) :: ints).
        split; [rewrite Htr, <- app_assoc; reflexivity |].
        split; [rewrite cursor_after_cons; exact Hcur |].
        destruct out as [logs | e |]; [| | exact I].
        -- destruct Hout as (Hall & Hnil & Hcons & Hq).
           split; [constructor; [exact I | exact Hall] |].
           split; [discriminate |].
           split; [| discriminate].
           intros _. destruct ints as [| i ints].
           ++ specialize (Hnil eq_refl). rewrite Hcur. simpl.
              apply Z.leb_le in Hle. lia.
           ++ apply Hcons. discriminate.
        -- destruct Hout as (ints0 & i & Heq & Hf & Hall).
           exists (GetLogs (chunk_params fp from
                              (Z.min (from + FILTER_MAX_BLOCK_RANGE)
                                 target)) (inr entries) :: ints0), i.
           rewrite Heq. repeat split; [exact Hf |].
           constructor; [exact I | exact Hall].
    + inversion Hrun; subst. exists []. rewrite app_nil_r.
      apply Z.leb_gt in Hle. repeat split; auto. congruence.
Qed.

(** When the range needs a second chunk and the first chunk query is
    answered, the second query starts at the upper bound of the first: the
    boundary block belongs to both. *)
Lemma get_new_entries_loop_second_chunk fuel filter_params target
    from_block result s entries w :
  from_block + FILTER_MAX_BLOCK_RANGE <= target ->
  eth_getLogs web3
    (chunk_params filter_params from_block
       (from_block + FILTER_MAX_BLOCK_RANGE)) (node s)
  = (inr entries, w) ->
  exists r rest,
    trace (snd (get_new_entries_loop web3 (S (S fuel)) filter_params target
                  from_block result s))
    = trace s ++
      GetLogs (chunk_params filter_params from_block
                 (from_block + FILTER_MAX_BLOCK_RANGE)) (inr entries)
      :: GetLogs (chunk_params filter_params
                    (from_block + FILTER_MAX_BLOCK_RANGE)
                    (Z.min (from_block + FILTER_MAX_BLOCK_RANGE
                            + FILTER_MAX_BLOCK_RANGE) target)) r
      :: rest.
Proof.
  intros Hsecond Hfirst.
  assert (Hpos : 0 < FILTER_MAX_BLOCK_RANGE) by reflexivity.
  cbn [get_new_entries_loop].
  replace (from_block <=? target) with true
    by (symmetry; apply Z.leb_le; lia).
  replace (Z.min (from_block + FILTER_MAX_BLOCK_RANGE) target)
    with (from_block + FILTER_MAX_BLOCK_RANGE) by lia.
  unfold bind at 1. rewrite do_get_new_entries_run. cbv zeta.
  rewrite Hfirst.
  replace (from_block + FILTER_MAX_BLOCK_RANGE <=? target) with true
    by (symmetry; apply Z.leb_le; lia).
  unfold bind at 1. rewrite do_get_new_entries_run. cbv zeta.
  cbn [node trace _last_block].
  destruct (eth_getLogs web3 _ w) as [[e | entries'] w'].
  - exists (inl e), []. cbn [snd trace]. rewrite <- app_assoc. reflexivity.
  - destruct (get_new_entries_loop web3 fuel filter_params target _ _ _)
      as [out s'] eqn:Hrun.
    apply get_new_entries_loop_run in Hrun.
    destruct Hrun as (ints & Htr & _). cbn [trace] in Htr.
    exists (inr entries'), ints. cbn [snd]. rewrite Htr, <- !app_assoc.
    reflexivity.
Qed.

(** The fuel the loop is given never runs out. *)
Lemma get_new_entries_loop_fuel fuel :
  forall filter_params target from_block result s,
    (target < from_block /\ (1 <= fuel)%nat) \/
    (from_block <= target /\
     (Z.to_nat ((target - from_block) / FILTER_MAX_BLOCK_RANGE) + 2
      <= fuel)%nat) ->
    fst (get_new_entries_loop web3 fuel filter_params target from_block
           result s) <> OutOfFuel.
Proof.
  induction fuel as [| fuel IH]; intros fp target from result s Hfuel.
  - lia.
  - simpl. destruct (from <=? target) eqn:Hle.
    + apply Z.leb_le in Hle.
      unfold bind. rewrite do_get_new_entries_run. cbv zeta.
      destruct (eth_getLogs web3 _ (node s)) as [[e | entries] w];
        [simpl; discriminate |].
      apply IH. unfold FILTER_MAX_BLOCK_RANGE in *.
      destruct Hfuel as [[Hlt _] | [_ Hfuel]]; [lia |].
      destruct (Z_lt_le_dec target (from + 100000)) as [Hlast | Hmore].
      * left. split; lia.
      * right. split; [lia |].
        replace (target - (from + 100000))
          with ((target - from) + (-1) * 100000) by lia.
        rewrite Z.div_add by lia.
        assert (1 <= (target - from) / 100000)
          by (apply Z.div_le_lower_bound; lia).
        lia.
    + simpl. discriminate.
Qed.

Lemma get_new_entries_has_fuel filter_params target s :
  fst (get_new_entries web3 filter_params target s) <> OutOfFuel.
Proof.
  unfold get_new_entries, bind, get_last_block.
  destruct (block_specification_to_number web3 _ s) as [[n | e |] s1] eqn:Hb.
  - apply get_new_entries_loop_fuel. unfold loop_fuel.
    destruct (Z_lt_le_dec target (Z.max n (_last_block s1 + 1)));
      [left | right]; split; lia.
  - simpl. discriminate.
  - exfalso. revert Hb. unfold block_specification_to_number, ret,
      getBlock_number, of_answer.
    destruct (match fromBlock filter_params with
              | Some b => b
              | None => BlockNum GENESIS_BLOCK_NUMBER
              end);
      try destruct (eth_getBlock_number web3 _ (node s)) as [[e | n] w];
      discriminate.
Qed.

(** The loop never lowers the cursor, whether it returns or raises. *)
Lemma get_new_entries_loop_cursor fuel :
  forall filter_params target from_block result s,
    _last_block s <= from_block ->
    _last_block s
    <= _last_block
         (snd (get_new_entries_loop web3 fuel filter_params target
                 from_block result s)).
Proof.
  induction fuel as [| fuel IH]; intros fp target from result s Hinv;
    simpl.
  - lia.
  - destruct (from <=? target) eqn:Hle; [| simpl; lia].
    apply Z.leb_le in Hle.
    unfold bind. rewrite do_get_new_entries_run. cbv zeta.
    destruct (eth_getLogs web3 _ (node s)) as [[e | entries] w];
      [simpl; lia |].
    etransitivity; [| apply IH]; simpl;
      unfold FILTER_MAX_BLOCK_RANGE; lia.
Qed.

Lemma block_specification_to_number_run block s :
  exists ints,
    trace (snd (block_specification_to_number web3 block s))
    = trace s ++ ints /\
    log_queries ints = [] /\
    _last_block (snd (block_specification_to_number web3 block s))
    = _last_block s /\
    match fst (block_specification_to_number web3 block s) with
    | Return _ => Forall answered ints
    | Raise e =>
        exists i, ints = [i] /\ failed e i
    | OutOfFuel => False
    end.
Proof.
  unfold block_specification_to_number, ret, getBlock_number.
  destruct block as [n | tag | h];
    try (exists []; simpl; rewrite app_nil_r; now auto);
    destruct (eth_getBlock_number web3 _ (node s)) as [[e | n] w]; simpl;
    eexists [_]; simpl; repeat split;
    try (eexists; split; [reflexivity | reflexivity]);
    try (constructor; [exact I | constructor]).
Qed.

Lemma get_new_entries_cursor filter_params target s :
  _last_block s
  <= _last_block (snd (get_new_entries web3 filter_params target s)).
Proof.
  unfold get_new_entries, bind, get_last_block.
  destruct (block_specification_to_number_run
              (match fromBlock filter_params with
               | Some b => b
               | None => BlockNum GENESIS_BLOCK_NUMBER
               end) s) as (ints & _ & _ & Hcur & _).
  destruct (block_specification_to_number web3 _ s) as [[n | e |] s1];
    cbv beta iota; cbn [snd] in *; try lia.
  rewrite <- Hcur. apply get_new_entries_loop_cursor. lia.
Qed.

Lemma log_queries_app (a b : list (Interaction Log)) :
  log_queries (a ++ b) = log_queries a ++ log_queries b.
Proof.
  induction a as [| [p r | r | blk r] a IH]; simpl; congruence.
Qed.

Lemma cursor_after_no_log_query (ints : list (Interaction Log)) :
  forall c, log_queries ints = [] -> cursor_after c ints = c.
Proof.
  unfold cursor_after.
  induction ints as [| [p r | r | blk r] ints IH]; intros c Hq;
    simpl in *; try discriminate; auto.
Qed.

Lemma cursor_after_app c (a b : list (Interaction Log)) :
  cursor_after c (a ++ b) = cursor_after (cursor_after c a) b.
Proof. apply fold_left_app. Qed.

(** A failing chunk query makes the whole call raise that failure, and
    nothing is returned.  The cursor is then where the answered chunk
    queries of the call left it, the upper bound of the last of them.
    When the call returns after at least one chunk query, every query was
    answered and the cursor is the target. *)
Theorem get_new_entries_cursor_follows_answered_chunks
    filter_params target s :
  let out := fst (get_new_entries web3 filter_params target s) in
  let s' := snd (get_new_entries web3 filter_params target s) in
  exists ints,
    trace s' = trace s ++ ints /\
    _last_block s' = cursor_after (_last_block s) ints /\
    match out with
    | Return _ =>
        Forall answered ints /\
        (log_queries ints = [] \/ _last_block s' = target)
    | Raise e =>
        exists ints0 i,
          ints = ints0 ++ [i] /\ failed e i /\ Forall answered ints0
    | OutOfFuel => False
    end.
Proof.
  pose proof (get_new_entries_has_fuel filter_params target s) as Hfuel.
  revert Hfuel. unfold get_new_entries, bind, get_last_block.
  destruct (block_specification_to_number_run
              (match fromBlock filter_params with
               | Some b => b
               | None => BlockNum GENESIS_BLOCK_NUMBER
               end) s) as (ints1 & Htr1 & Hq1 & Hc1 & Ho1).
  destruct (block_specification_to_number web3 _ s) as [[n | e |] s1];
    cbv beta iota zeta; cbn [fst snd] in *; intros Hfuel.
  - destruct (get_new_entries_loop web3 _ filter_params target _ [] s1)
      as [out s'] eqn:Hrun.
    apply get_new_entries_loop_run in Hrun.
    destruct Hrun as (ints2 & Htr2 & Hc2 & Hout). cbn [fst snd] in *.
    exists (ints1 ++ ints2).
    split; [rewrite Htr2, Htr1, app_assoc; reflexivity |].
    split.
    { rewrite cursor_after_app,
        (cursor_after_no_log_query ints1 _ Hq1), <- Hc1. exact Hc2. }
    destruct out as [logs | e |]; [| | congruence].
    + destruct Hout as (Hall & _ & Hcons & Hq). split.
      * apply Forall_app; split; assumption.
      * rewrite log_queries_app, Hq1. simpl.
        destruct ints2 as [| i ints2]; [left; reflexivity |].
        right. apply Hcons. discriminate.
    + destruct Hout as (ints0 & i & Heq & Hf & Hall).
      exists (ints1 ++ ints0), i. rewrite Heq, app_assoc.
      repeat split; [exact Hf |]. apply Forall_app; split; assumption.
  - exists ints1. split; [exact Htr1 |].
    split; [rewrite (cursor_after_no_log_query ints1 _ Hq1); exact Hc1 |].
    destruct Ho1 as (i & Heq & Hf). exists [], i. subst ints1.
    repeat split; [exact Hf | constructor].
  - contradiction.
Qed.

Ltac run_all_entries web3 :=
  repeat
    (match goal with
     | |- context [eth_blockNumber web3 ?x] =>
         destruct (eth_blockNumber web3 x) as [[? | ?] ?]
     | |- context [eth_getLogs web3 ?p ?x] =>
         destruct (eth_getLogs web3 p x) as [[? | ?] ?]
     | |- context [eth_getBlock_number web3 ?b ?x] =>
         destruct (eth_getBlock_number web3 b x) as [[? | ?] ?]
     | |- context [is_latest_or_pending ?b] =>
         destruct (is_latest_or_pending b) eqn:?
     | |- context [match toBlock ?p with _ => _ end] =>
         destruct (toBlock p) as [[? | ? | ?] |] eqn:?
     | |- context [if ?c then _ else _] => destruct c eqn:?
     end; simpl).

(** C4, as the code has it: no sequence of [get_new_entries] calls, with
    any targets and whether the calls return or raise, lowers the cursor.
    A call of [get_all_entries] that returns has overwritten the cursor
    with the resolved [toBlock] of its query or, when the query has no
    truthy [toBlock], with the block number of the call; the value does
    not depend on the cursor before the call. *)
Theorem cursor_monotone_under_get_new_entries_only :
  (forall filter_params targets s,
      _last_block s
      <= _last_block (get_new_entries_seq web3 filter_params targets s))
  /\
  (forall filter_params block_number s,
      let r := get_all_entries web3 filter_params block_number s in
      exists ints,
        trace (snd r) = trace s ++ ints /\
        match fst r with
        | Return _ =>
            exists n,
              block_number_used block_number ints = Some n /\
              resolved_toBlock_or_block_number filter_params n ints
                (_last_block (snd r))
        | _ => True
        end)
  /\
  (forall filter_params block_number c1 c2 w t1 t2,
      let r1 :=
        get_all_entries web3 filter_params block_number (mkState c1 w t1) in
      let r2 :=
        get_all_entries web3 filter_params block_number (mkState c2 w t2) in
      match fst r1 with
      | Return _ => _last_block (snd r1) = _last_block (snd r2)
      | _ => True
      end).
Proof.
  split; [| split].
  - intros fp targets. unfold get_new_entries_seq.
    induction targets as [| target targets IH]; intros s; simpl; [lia |].
    etransitivity; [apply (get_new_entries_cursor fp target s) | apply IH].
  - intros fp bn s.
    unfold get_all_entries, block_number_or_current, bind, blockNumber,
      getLogs, block_specification_to_number, getBlock_number,
      set_last_block, ret, of_answer, block_number_used,
      resolved_toBlock_or_block_number, full_range_query, resolves_to.
    destruct bn as [n |]; [destruct (n =? 0) eqn:? |]; simpl;
      run_all_entries web3;
      rewrite <- ?app_assoc; simpl;
      (eexists; split; [reflexivity |]); simpl;
      try exact I;
      (eexists; split; [reflexivity |]); simpl;
      repeat
        (match goal with
         | H : ?x = _ |- context [?x] => rewrite H; simpl
         end);
      try reflexivity; try congruence; auto.
  - intros fp bn c1 c2 w t1 t2.
    unfold get_all_entries, block_number_or_current, bind, blockNumber,
      getLogs, block_specification_to_number, getBlock_number,
      set_last_block, ret, of_answer.
    destruct bn as [n |]; [destruct (n =? 0) |]; simpl;
      run_all_entries web3; auto.
Qed.


(** *** The chunks of [get_new_entries] *)

Lemma chunk_count_step from_block target :
  from_block <= target ->
  chunk_count from_block target
  = S (chunk_count (from_block + FILTER_MAX_BLOCK_RANGE) target).
Proof.
  intros Hle. unfold chunk_count, FILTER_MAX_BLOCK_RANGE.
  replace (from_block <=? target) with true
    by (symmetry; apply Z.leb_le; exact Hle).
  destruct (from_block + 100000 <=? target) eqn:Hnext.
  - apply Z.leb_le in Hnext.
    replace (target - from_block)
      with ((target - (from_block + 100000)) + 1 * 100000) by lia.
    rewrite Z.div_add by lia.
    assert (0 <= (target - (from_block + 100000)) / 100000)
      by (apply Z.div_pos; lia).
    lia.
  - apply Z.leb_gt in Hnext.
    rewrite Z.div_small by lia. reflexivity.
Qed.

Lemma chunk_count_done from_block target :
  target < from_block -> chunk_count from_block target = O.
Proof.
  intros Hlt. unfold chunk_count.
  replace (from_block <=? target) with false
    by (symmetry; apply Z.leb_gt; exact Hlt).
  reflexivity.
Qed.

(** The loop issues the chunk queries in order and stops at the first that
    fails; when it returns, all of them were issued and the result is the
    entries collected before, followed by the answers in order. *)
Lemma get_new_entries_loop_chunks fuel :
  forall filter_params target from_block result s out s',
    get_new_entries_loop web3 fuel filter_params target from_block result s
    = (out, s') ->
    exists ints m,
      trace s' = trace s ++ ints /\
      (m <= chunk_count from_block target)%nat /\
      log_queries ints
      = map (chunk_query filter_params) (chunks m from_block target) /\
      List.length ints = m /\
      match out with
      | Return entries =>
          m = chunk_count from_block target /\
          entries = result ++ answers ints
      | _ => True
      end.
Proof.
  induction fuel as [| fuel IH]; intros fp target from result s out s' Hrun;
    simpl in Hrun.
  - inversion Hrun; subst. exists [], O. rewrite app_nil_r.
    repeat split; auto. lia.
  - destruct (from <=? target) eqn:Hle.
    + apply Z.leb_le in Hle.
      unfold bind in Hrun. rewrite do_get_new_entries_run in Hrun.
      cbv zeta in Hrun. rewrite (chunk_count_step _ _ Hle).
      destruct (eth_getLogs web3 _ (node s)) as [[e | entries] w].
      * inversion Hrun; subst; clear Hrun.
        eexists [_], 1%nat. simpl. repeat split. lia.
      * apply IH in Hrun.
        destruct Hrun as (ints & m & Htr & Hm & Hq & Hlen & Hout).
        simpl in Htr.
        exists (GetLogs (chunk_params fp from
                           (Z.min (from + FILTER_MAX_BLOCK_RANGE) target))
                  (inr entries) :: ints), (S m).
        split; [rewrite Htr, <- app_assoc; reflexivity |].
        split; [lia |].
        split; [simpl; rewrite Hq; reflexivity |].
        split; [simpl; rewrite Hlen; reflexivity |].
        destruct out as [logs | e |]; auto.
        destruct Hout as (-> & ->). split; [reflexivity |].
        simpl. rewrite app_assoc. reflexivity.
    + apply Z.leb_gt in Hle. inversion Hrun; subst.
      exists [], O. rewrite app_nil_r, (chunk_count_done _ _ Hle).
      repeat split; auto. simpl. rewrite app_nil_r. reflexivity.
Qed.

(** With a numeric or absent [fromBlock] the call is its loop, started at
    [first_block]. *)
Lemma get_new_entries_numeric filter_params target s from_block :
  first_block filter_params (_last_block s) = Some from_block ->
  get_new_entries web3 filter_params target s
  = get_new_entries_loop web3 (loop_fuel target from_block) filter_params
      target from_block [] s.
Proof.
  unfold first_block, get_new_entries, bind, get_last_block,
    block_specification_to_number, ret.
  destruct (fromBlock filter_params) as [[n | tag | h] |];
    intros [= <-]; reflexivity.
Qed.

Lemma get_new_entries_loop_done fuel filter_params target from_block
    result s :
  target < from_block ->
  get_new_entries_loop web3 (S fuel) filter_params target from_block result s
  = (Return result, s).
Proof.
  intros Hlt. cbn [get_new_entries_loop].
  replace (from_block <=? target) with false
    by (symmetry; apply Z.leb_gt; exact Hlt).
  reflexivity.
Qed.

Lemma chunks_bounds target m :
  forall from_block a c,
    (m <= chunk_count from_block target)%nat ->
    In (a, c) (chunks m from_block target) ->
    from_block <= a /\ a <= c /\ c <= target /\
    c - a <= FILTER_MAX_BLOCK_RANGE.
Proof.
  induction m as [| m IH]; intros from a c Hm Hin; [destruct Hin |].
  assert (Hle : from <= target).
  { destruct (Z_le_gt_dec from target) as [Hle | Hgt]; [exact Hle |].
    rewrite chunk_count_done in Hm by lia. lia. }
  rewrite (chunk_count_step _ _ Hle) in Hm.
  destruct Hin as [Heq | Hin].
  - injection Heq as <- <-. unfold FILTER_MAX_BLOCK_RANGE. lia.
  - apply IH in Hin; [| lia]. unfold FILTER_MAX_BLOCK_RANGE in *. lia.
Qed.

Lemma chunks_cover target b n :
  forall from_block,
    chunk_count from_block target = n ->
    from_block <= b <= target ->
    exists a c,
      In (a, c) (chunks n from_block target) /\ a <= b <= c.
Proof.
  induction n as [| n IH]; intros from Hn Hb.
  - rewrite chunk_count_step in Hn by lia. discriminate.
  - rewrite chunk_count_step in Hn by lia. injection Hn as Hn.
    destruct (Z_le_gt_dec b (from + FILTER_MAX_BLOCK_RANGE)) as [Hin | Hout].
    + exists from, (Z.min (from + FILTER_MAX_BLOCK_RANGE) target).
      split; [left; reflexivity | lia].
    + destruct (IH _ Hn) as (a & c & Hin & Hac); [lia |].
      exists a, c. split; [right; exact Hin | exact Hac].
Qed.

Lemma answers_no_log_query (ints : list (Interaction Log)) :
  log_queries ints = [] -> answers ints = [].
Proof.
  induction ints as [| [p r | r | blk r] ints IH]; simpl; intros Hq;
    try discriminate; auto.
Qed.

Lemma answers_app (a b : list (Interaction Log)) :
  answers (a ++ b) = answers a ++ answers b.
Proof.
  induction a as [| [p [e | entries] | r | blk r] a IH]; simpl;
    rewrite ?IH, ?app_assoc; reflexivity.
Qed.

(** X1.  With a numeric or absent [fromBlock], the log queries of a call of
    [get_new_entries] are, in order, the chunks starting at
    [max(fromBlock, _last_block + 1)]: chunk [k] runs from
    [start + k * FILTER_MAX_BLOCK_RANGE] to that plus
    [FILTER_MAX_BLOCK_RANGE], cut at the target.  Nothing else is asked of
    the node.  A call that returns has issued every chunk, a call that
    raises a prefix of them. *)
Theorem get_new_entries_queries_are_chunks filter_params target s start :
  first_block filter_params (_last_block s) = Some start ->
  exists m,
    (m <= chunk_count start target)%nat /\
    log_queries (trace (snd (get_new_entries web3 filter_params target s)))
    = log_queries (trace s)
      ++ map (chunk_query filter_params) (chunks m start target) /\
    List.length (trace (snd (get_new_entries web3 filter_params target s)))
    = (List.length (trace s) + m)%nat /\
    match fst (get_new_entries web3 filter_params target s) with
    | Return _ => m = chunk_count start target
    | _ => True
    end.
Proof.
  intros Hstart. rewrite (get_new_entries_numeric _ _ _ _ Hstart).
  destruct (get_new_entries_loop web3 _ filter_params target start [] s)
    as [out s'] eqn:Hrun.
  apply get_new_entries_loop_chunks in Hrun.
  destruct Hrun as (ints & m & Htr & Hm & Hq & Hlen & Hout).
  exists m. cbn [fst snd]. rewrite Htr, log_queries_app, Hq, length_app, Hlen.
  repeat split; [exact Hm |].
  destruct out; auto. apply Hout.
Qed.

Lemma chunks_length target m :
  forall from_block, List.length (chunks m from_block target) = m.
Proof. induction m as [| m IH]; intros f; simpl; [| rewrite IH]; auto. Qed.

(** X2.  With a numeric or absent [fromBlock], a call of [get_new_entries]
    that returns has issued ceil(R / FILTER_MAX_BLOCK_RANGE) log queries,
    where R is the number of blocks from the start block to the target. *)
Theorem get_new_entries_query_count filter_params target s start entries :
  first_block filter_params (_last_block s) = Some start ->
  start <= target ->
  fst (get_new_entries web3 filter_params target s) = Return entries ->
  exists ints,
    trace (snd (get_new_entries web3 filter_params target s))
    = trace s ++ ints /\
    Z.of_nat (List.length (log_queries ints))
    = ((target - start + 1) + (FILTER_MAX_BLOCK_RANGE - 1))
      / FILTER_MAX_BLOCK_RANGE.
Proof.
  intros Hstart Hle. rewrite (get_new_entries_numeric _ _ _ _ Hstart).
  destruct (get_new_entries_loop web3 _ filter_params target start [] s)
    as [out s'] eqn:Hrun.
  cbn [fst snd]. intros ->.
  apply get_new_entries_loop_chunks in Hrun.
  destruct Hrun as (ints & m & Htr & _ & Hq & _ & -> & _).
  exists ints. split; [exact Htr |].
  rewrite Hq, length_map, chunks_length.
  unfold chunk_count, FILTER_MAX_BLOCK_RANGE.
  replace (start <=? target) with true by (symmetry; apply Z.leb_le; lia).
  assert (0 <= (target - start) / 100000) by (apply Z.div_pos; lia).
  rewrite Z2Nat.id by lia.
  replace (target - start + 1 + (100000 - 1))
    with ((target - start) + 1 * 100000) by lia.
  rewrite Z.div_add by lia. reflexivity.
Qed.

(** X3.  What [get_new_entries] returns is the concatenation, in the order
    of the queries, of the entries the node answered to the log queries of
    the call. *)
Theorem get_new_entries_returns_answers_in_order filter_params target s
    entries :
  fst (get_new_entries web3 filter_params target s) = Return entries ->
  exists ints,
    trace (snd (get_new_entries web3 filter_params target s))
    = trace s ++ ints /\
    entries = answers ints.
Proof.
  unfold get_new_entries, bind, get_last_block.
  destruct (block_specification_to_number_run
              (match fromBlock filter_params with
               | Some b => b
               | None => BlockNum GENESIS_BLOCK_NUMBER
               end) s) as (ints1 & Htr1 & Hq1 & _ & _).
  destruct (block_specification_to_number web3 _ s) as [[n | e |] s1];
    cbv beta iota zeta; cbn [fst snd] in *; try discriminate.
  destruct (get_new_entries_loop web3 _ filter_params target _ [] s1)
    as [out s'] eqn:Hrun.
  cbn [fst snd]. intros ->.
  apply get_new_entries_loop_chunks in Hrun.
  destruct Hrun as (ints & m & Htr & _ & _ & _ & _ & Hres).
  exists (ints1 ++ ints).
  split; [rewrite Htr, Htr1, app_assoc; reflexivity |].
  rewrite answers_app, (answers_no_log_query _ Hq1). exact Hres.
Qed.

(** X4.  With a numeric or absent [fromBlock], a call of [get_new_entries]
    that returns has asked for every block from the start block to the
    target: each lies within the bounds of one of the log queries of the
    call.  Every such query stays within that range and its bounds are at
    most [FILTER_MAX_BLOCK_RANGE] apart. *)
Theorem get_new_entries_covers_range filter_params target s start entries :
  first_block filter_params (_last_block s) = Some start ->
  fst (get_new_entries web3 filter_params target s) = Return entries ->
  exists ints,
    trace (snd (get_new_entries web3 filter_params target s))
    = trace s ++ ints /\
    (forall b, start <= b <= target ->
       exists a c,
         In (chunk_params filter_params a c) (log_queries ints) /\
         a <= b <= c) /\
    (forall p, In p (log_queries ints) ->
       exists a c,
         p = chunk_params filter_params a c /\
         start <= a /\ a <= c /\ c <= target /\
         c - a <= FILTER_MAX_BLOCK_RANGE).
Proof.
  intros Hstart. rewrite (get_new_entries_numeric _ _ _ _ Hstart).
  destruct (get_new_entries_loop web3 _ filter_params target start [] s)
    as [out s'] eqn:Hrun.
  cbn [fst snd]. intros ->.
  apply get_new_entries_loop_chunks in Hrun.
  destruct Hrun as (ints & m & Htr & Hm & Hq & _ & -> & _).
  exists ints. split; [exact Htr |]. rewrite Hq. split.
  - intros b Hb.
    destruct (chunks_cover target b _ start eq_refl Hb) as (a & c & Hin & Hac).
    exists a, c. split; [| exact Hac].
    apply (in_map (chunk_query filter_params)) in Hin. exact Hin.
  - intros p Hin. apply in_map_iff in Hin.
    destruct Hin as ([a c] & <- & Hin).
    exists a, c. split; [reflexivity |].
    apply (chunks_bounds target _ start a c Hm Hin).
Qed.

Lemma get_new_entries_below_cursor filter_params target s :
  target <= _last_block s ->
  exists ints,
    trace (snd (get_new_entries web3 filter_params target s))
    = trace s ++ ints /\
    log_queries ints = [] /\
    _last_block (snd (get_new_entries web3 filter_params target s))
    = _last_block s /\
    match fst (get_new_entries web3 filter_params target s) with
    | Return entries => entries = []
    | Raise _ => True
    | OutOfFuel => False
    end.
Proof.
  intros Hle. unfold get_new_entries, bind, get_last_block.
  destruct (block_specification_to_number_run
              (match fromBlock filter_params with
               | Some b => b
               | None => BlockNum GENESIS_BLOCK_NUMBER
               end) s) as (ints1 & Htr1 & Hq1 & Hc1 & Ho1).
  destruct (block_specification_to_number web3 _ s) as [[n | e |] s1];
    cbv beta iota zeta; cbn [fst snd] in *.
  - unfold loop_fuel. rewrite get_new_entries_loop_done by lia.
    exists ints1. cbn [fst snd]. repeat split; assumption.
  - exists ints1. repeat split; assumption.
  - contradiction.
Qed.

(** X5.  When the target is not above the cursor, [get_new_entries] issues
    no log query and leaves the cursor where it is; if it returns, it
    returns no entries. *)
Theorem get_new_entries_up_to_date filter_params target s :
  target <= _last_block s ->
  exists ints,
    trace (snd (get_new_entries web3 filter_params target s))
    = trace s ++ ints /\
    log_queries ints = [] /\
    _last_block (snd (get_new_entries web3 filter_params target s))
    = _last_block s /\
    match fst (get_new_entries web3 filter_params target s) with
    | Return entries => entries = []
    | Raise _ => True
    | OutOfFuel => False
    end.
Proof. apply get_new_entries_below_cursor. Qed.

(** X6.  With a numeric or absent [fromBlock], asking again for the target
    of a call that returned is a no-op: the second call returns no entries,
    asks nothing of the node and changes nothing. *)
Theorem get_new_entries_again_is_noop filter_params target s start entries :
  first_block filter_params (_last_block s) = Some start ->
  fst (get_new_entries web3 filter_params target s) = Return entries ->
  get_new_entries web3 filter_params target
    (snd (get_new_entries web3 filter_params target s))
  = (Return [], snd (get_new_entries web3 filter_params target s)).
Proof.
  intros Hstart Hret.
  assert (Hagain :
            exists start',
              first_block filter_params
                (_last_block (snd (get_new_entries web3 filter_params
                                     target s))) = Some start' /\
              target < start').
  { pose proof (get_new_entries_cursor filter_params target s) as Hmono.
    revert Hret Hmono. rewrite (get_new_entries_numeric _ _ _ _ Hstart).
    destruct (get_new_entries_loop web3 _ filter_params target start [] s)
      as [out s'] eqn:Hrun.
    cbn [fst snd]. intros -> Hmono.
    apply get_new_entries_loop_run in Hrun.
    destruct Hrun as (ints & _ & _ & _ & Hnil & Hcons & _).
    revert Hstart. unfold first_block.
    destruct (fromBlock filter_params) as [[n | tag | h] |];
      try discriminate; intros [= <-]; eexists; (split; [reflexivity |]);
      (destruct ints as [| i ints];
       [specialize (Hnil eq_refl) | rewrite Hcons by discriminate]; lia). }
  destruct Hagain as (start' & Hstart' & Hlt).
  rewrite (get_new_entries_numeric _ _ _ _ Hstart').
  unfold loop_fuel. apply get_new_entries_loop_done. exact Hlt.
Qed.

(** *** [get_all_entries] *)

Ltac run_get_all_entries :=
  unfold get_all_entries, block_number_or_current, bind, blockNumber,
    getLogs, block_specification_to_number, getBlock_number,
    set_last_block, ret, of_answer;
  simpl;
  repeat
    (match goal with
     | |- context [eth_blockNumber web3 ?x] =>
         destruct (eth_blockNumber web3 x) as [[? | ?] ?]
     | |- context [eth_getLogs web3 ?p ?x] =>
         destruct (eth_getLogs web3 p x) as [[? | ?] ?]
     | |- context [eth_getBlock_number web3 ?b ?x] =>
         destruct (eth_getBlock_number web3 b x) as [[? | ?] ?]
     | |- context [is_latest_or_pending ?b] =>
         destruct (is_latest_or_pending b) eqn:?
     | |- context [match toBlock ?p with _ => _ end] =>
         destruct (toBlock p) as [[? | ? | ?] |] eqn:?
     | |- context [if ?c then _ else _] => destruct c eqn:?
     end; simpl).

(** X7.  A call of [get_all_entries] that raises leaves the cursor where it
    was: the cursor is assigned only after the log query and the
    resolution of [toBlock] have both succeeded. *)
Theorem get_all_entries_failure_keeps_cursor filter_params block_number s :
  match fst (get_all_entries web3 filter_params block_number s) with
  | Raise _ =>
      _last_block (snd (get_all_entries web3 filter_params block_number s))
      = _last_block s
  | Return _ => True
  | OutOfFuel => False
  end.
Proof.
  destruct block_number as [n |]; [destruct (n =? 0) eqn:? |];
    run_get_all_entries; auto.
Qed.

Lemma get_all_entries_with_number filter_params n s entries :
  n <> 0 ->
  toBlock filter_params = None \/
  is_latest_or_pending (toBlock filter_params) = true \/
  (exists t, toBlock filter_params = Some (BlockNum t)) ->
  fst (get_all_entries web3 filter_params (Some n) s) = Return entries ->
  _last_block (snd (get_all_entries web3 filter_params (Some n) s))
  = match toBlock filter_params with
    | Some (BlockNum t) => if t =? 0 then n else t
    | _ => n
    end /\
  exists p,
    trace (snd (get_all_entries web3 filter_params (Some n) s))
    = trace s ++ [GetLogs p (inr entries)].
Proof.
  intros Hn Hto.
  unfold get_all_entries, block_number_or_current.
  replace (n =? 0) with false by (symmetry; apply Z.eqb_neq; exact Hn).
  unfold bind, ret, getLogs, set_last_block, of_answer.
  destruct Hto as [Hto | [Hto | (t & Hto)]].
  - rewrite Hto. cbn [is_latest_or_pending].
    destruct (eth_getLogs web3 _ (node s)) as [[e | l] w]; cbn [fst snd];
      try discriminate.
    rewrite Hto. cbn [fst snd _last_block trace].
    intros [= ->]. split; [reflexivity | eexists; reflexivity].
  - rewrite Hto.
    destruct (toBlock filter_params) as [[t | tag | h] |] eqn:Htag;
      try discriminate.
    cbn [set_toBlock toBlock].
    destruct (eth_getLogs web3 _ (node s)) as [[e | l] w]; cbn [fst snd];
      try discriminate.
    cbn [toBlock truthy block_specification_to_number ret].
    replace (n =? 0) with false by (symmetry; apply Z.eqb_neq; exact Hn).
    cbn [negb fst snd _last_block trace].
    intros [= ->]. split; [reflexivity | eexists; reflexivity].
  - rewrite Hto. cbn [is_latest_or_pending].
    destruct (eth_getLogs web3 _ (node s)) as [[e | l] w]; cbn [fst snd];
      try discriminate.
    rewrite Hto. cbn [truthy block_specification_to_number ret].
    destruct (t =? 0); cbn [negb fst snd _last_block trace];
      intros [= ->]; (split; [reflexivity | eexists; reflexivity]).
Qed.

(** X8.  [get_all_entries(n)] with a non-zero [n], on a filter whose
    [toBlock] is absent, "latest"/"pending" or a number, asks the node one
    log query and nothing else.  When it returns, the cursor is [n] if
    [toBlock] is absent or symbolic, the filter's [toBlock] if that is a
    non-zero number, and [n] again if [toBlock] is the number 0 (which
    Python takes for a missing value). *)
Theorem get_all_entries_cursor_after_return filter_params n s entries :
  n <> 0 ->
  toBlock filter_params = None \/
  is_latest_or_pending (toBlock filter_params) = true \/
  (exists t, toBlock filter_params = Some (BlockNum t)) ->
  fst (get_all_entries web3 filter_params (Some n) s) = Return entries ->
  _last_block (snd (get_all_entries web3 filter_params (Some n) s))
  = match toBlock filter_params with
    | Some (BlockNum t) => if t =? 0 then n else t
    | _ => n
    end /\
  exists p,
    trace (snd (get_all_entries web3 filter_params (Some n) s))
    = trace s ++ [GetLogs p (inr entries)].
Proof. apply get_all_entries_with_number. Qed.

(** X9.  After [get_all_entries(n)] has returned on a filter whose
    [toBlock] is absent or "latest"/"pending", the blocks up to [n] count
    as delivered: [get_new_entries] with a target up to [n] issues no log
    query. *)
Theorem get_new_entries_after_get_all_entries filter_params n s entries
    target :
  n <> 0 ->
  toBlock filter_params = None \/
  is_latest_or_pending (toBlock filter_params) = true ->
  fst (get_all_entries web3 filter_params (Some n) s) = Return entries ->
  target <= n ->
  exists ints,
    trace (snd (get_new_entries web3 filter_params target
                  (snd (get_all_entries web3 filter_params (Some n) s))))
    = trace (snd (get_all_entries web3 filter_params (Some n) s)) ++ ints /\
    log_queries ints = [].
Proof.
  intros Hn Hto Hret Htarget.
  destruct (get_all_entries_with_number filter_params n s entries Hn)
    as (Hcur & _); [tauto | exact Hret |].
  assert (Hcursor :
            _last_block (snd (get_all_entries web3 filter_params (Some n) s))
            = n).
  { rewrite Hcur. destruct Hto as [-> | Hto]; [reflexivity |].
    destruct (toBlock filter_params) as [[t | tag | h] |];
      try discriminate; reflexivity. }
  destruct (get_new_entries_below_cursor filter_params target
              (snd (get_all_entries web3 filter_params (Some n) s)))
    as (ints & Htr & Hq & _); [lia |].
  exists ints. split; assumption.
Qed.

End Run.

(** C1 at a fresh filter with no [fromBlock] and target 100000: the range
    (-1, 100000] has 100001 blocks and two log queries are issued, but the
    first asks for the blocks 0 .. 100000 (bounds inclusive, 100001 blocks)
    and the second for 100000 .. 100000, so block 100000 is asked for
    twice. *)
Theorem get_new_entries_chunks_share_boundary_block :
  let r := get_new_entries quiet_node plain_params 100000 (init tt) in
  fst r = Return [] /\
  map query_range (log_queries (trace (snd r))) =
    [ (Some (BlockNum 0), Some (BlockNum 100000));
      (Some (BlockNum 100000), Some (BlockNum 100000)) ].
Proof. vm_compute. split; reflexivity. Qed.

(** C2 at a fresh filter, target 150000, on a node that answers the first
    chunk with one entry and times out on the second.  The call raises and
    exposes nothing, but the cursor has moved from -1 to 100000, past the
    chunk that was answered.  The retry with the same target then starts
    at block 100001 and returns no entries: the entry of the first chunk
    is never delivered. *)
Theorem get_new_entries_failed_call_loses_entries :
  let r1 := get_new_entries hiccup_node plain_params 150000 (init 0%nat) in
  let r2 := get_new_entries hiccup_node plain_params 150000 (snd r1) in
  fst r1 = Raise (OtherError "ReadTimeout") /\
  _last_block (init (Log := string) 0%nat) = -1 /\
  _last_block (snd r1) = 100000 /\
  answers (trace (snd r1)) = ["entry"] /\
  fst r2 = Return [] /\
  map query_range (log_queries (trace (snd r2))) =
    [ (Some (BlockNum 0), Some (BlockNum 100000));
      (Some (BlockNum 100000), Some (BlockNum 150000));
      (Some (BlockNum 100001), Some (BlockNum 150000)) ].
Proof. vm_compute. repeat split; reflexivity. Qed.

(** C4 at a fresh filter: after [get_new_entries(100)] the cursor is 100,
    and [get_all_entries(50)] then leaves it at 50. *)
Lemma get_all_entries_lowers_cursor :
  let s1 := snd (get_new_entries quiet_node plain_params 100 (init tt)) in
  let s2 := snd (get_all_entries quiet_node plain_params (Some 50) s1) in
  _last_block s1 = 100 /\ _last_block s2 = 50 /\
  _last_block s2 < _last_block s1.
Proof. vm_compute. repeat split; reflexivity. Qed.

(** *** The further properties on the quiet node *)

(** X1 at a fresh filter and target 250000. *)
Lemma get_new_entries_queries_are_chunks_witness :
  let r := get_new_entries quiet_node plain_params 250000 (init tt) in
  exists m,
    (m <= chunk_count 0%Z 250000%Z)%nat /\
    log_queries (trace (snd r))
    = log_queries (trace (init (Log := string) tt))
      ++ map (chunk_query plain_params) (chunks m 0 250000) /\
    List.length (trace (snd r))
    = (List.length (trace (init (Log := string) tt)) + m)%nat /\
    match fst r with
    | Return _ => m = chunk_count 0 250000
    | _ => True
    end.
Proof.
  apply (get_new_entries_queries_are_chunks unit string quiet_node
           plain_params 250000 (init tt) 0).
  reflexivity.
Defined.

(** X2 at a fresh filter and target 250000: three queries. *)
Lemma get_new_entries_query_count_witness :
  let r := get_new_entries quiet_node plain_params 250000 (init tt) in
  exists ints,
    trace (snd r) = trace (init tt) ++ ints /\
    Z.of_nat (List.length (log_queries ints))
    = ((250000 - 0 + 1) + (FILTER_MAX_BLOCK_RANGE - 1))
      / FILTER_MAX_BLOCK_RANGE.
Proof.
  apply (get_new_entries_query_count unit string quiet_node plain_params
           250000 (init tt) 0 []);
    [reflexivity | lia | vm_compute; reflexivity].
Defined.

(** X3 on the flaky node, whose single answer is one entry. *)
Lemma get_new_entries_returns_answers_witness :
  let r := get_new_entries flaky_node plain_params 50 (init 0%nat) in
  exists ints,
    trace (snd r) = trace (init 0%nat) ++ ints /\
    ["entry"] = answers ints.
Proof.
  apply (get_new_entries_returns_answers_in_order nat string flaky_node
           plain_params 50 (init 0%nat) ["entry"]).
  vm_compute. reflexivity.
Defined.

(** X4 at a fresh filter and target 250000. *)
Lemma get_new_entries_covers_range_witness :
  let r := get_new_entries quiet_node plain_params 250000 (init tt) in
  exists ints,
    trace (snd r) = trace (init tt) ++ ints /\
    (forall b, 0 <= b <= 250000 ->
       exists a c,
         In (chunk_params plain_params a c) (log_queries ints) /\
         a <= b <= c) /\
    (forall p, In p (log_queries ints) ->
       exists a c,
         p = chunk_params plain_params a c /\
         0 <= a /\ a <= c /\ c <= 250000 /\
         c - a <= FILTER_MAX_BLOCK_RANGE).
Proof.
  apply (get_new_entries_covers_range unit string quiet_node plain_params
           250000 (init tt) 0 []);
    [reflexivity | vm_compute; reflexivity].
Defined.

(** X5 at a filter whose cursor is 100, asked for block 40. *)
Lemma get_new_entries_up_to_date_witness :
  let s := mkState (Log := string) 100 tt [] in
  let r := get_new_entries quiet_node plain_params 40 s in
  exists ints,
    trace (snd r) = trace s ++ ints /\
    log_queries ints = [] /\
    _last_block (snd r) = _last_block s /\
    match fst r with
    | Return entries => entries = []
    | Raise _ => True
    | OutOfFuel => False
    end.
Proof.
  apply (get_new_entries_up_to_date unit string quiet_node plain_params 40
           (mkState 100 tt [])).
  simpl. lia.
Defined.

(** X6 at a fresh filter and target 250000. *)
Lemma get_new_entries_again_witness :
  let r := get_new_entries quiet_node plain_params 250000 (init tt) in
  get_new_entries quiet_node plain_params 250000 (snd r)
  = (Return [], snd r).
Proof.
  apply (get_new_entries_again_is_noop unit string quiet_node plain_params
           250000 (init tt) 0 []);
    [reflexivity | vm_compute; reflexivity].
Defined.

(** X8 at a filter up to "latest" and at one whose [toBlock] is the
    number 0. *)
Lemma get_all_entries_cursor_after_return_witness :
  let latest := mkFilterParams None (Some (BlockTag "latest")) [] [] in
  let zero := mkFilterParams None (Some (BlockNum 0)) [] [] in
  _last_block (snd (get_all_entries quiet_node latest (Some 70) (init tt)))
  = 70 /\
  _last_block (snd (get_all_entries quiet_node zero (Some 70) (init tt)))
  = 70.
Proof.
  split.
  - apply (get_all_entries_cursor_after_return unit string quiet_node
             (mkFilterParams None (Some (BlockTag "latest")) [] []) 70
             (init tt) []);
      [lia | right; left; reflexivity | vm_compute; reflexivity].
  - apply (get_all_entries_cursor_after_return unit string quiet_node
             (mkFilterParams None (Some (BlockNum 0)) [] []) 70
             (init tt) []);
      [lia | right; right; exists 0; reflexivity | vm_compute; reflexivity].
Defined.

(** X9 at a fresh filter: [get_all_entries(70)], then
    [get_new_entries(60)]. *)
Lemma get_new_entries_after_get_all_entries_witness :
  let s1 := snd (get_all_entries quiet_node plain_params (Some 70) (init tt)) in
  exists ints,
    trace (snd (get_new_entries quiet_node plain_params 60 s1))
    = trace s1 ++ ints /\
    log_queries ints = [].
Proof.
  apply (get_new_entries_after_get_all_entries unit string quiet_node
           plain_params 70 (init tt) [] 60);
    [lia | left; reflexivity | vm_compute; reflexivity | lia].
Defined.

End FilterProperties.

(** * Properties of blockchain/state.py *)

Module ResolverProperties.
Import BlockchainState Examples.

Lemma bytes_eqb_eq (a b : bytes) : bytes_eqb a b = true <-> a = b.
Proof.
  revert b. induction a as [| x a IH]; intros [| y b]; simpl;
    try (split; [discriminate | discriminate]); [tauto |].
  rewrite andb_true_iff, IH. split.
  - intros [Hxy ->]. apply Byte.byte_dec_bl in Hxy. now subst.
  - intros Heq. injection Heq as -> ->. split; [| reflexivity].
    now apply Byte.byte_dec_lb.
Qed.

Lemma bytes_eqb_neq (a b : bytes) : a <> b -> bytes_eqb a b = false.
Proof.
  intros Hne. destruct (bytes_eqb a b) eqn:Heq; [| reflexivity].
  apply bytes_eqb_eq in Heq. contradiction.
Qed.

Lemma bytes_eqb_refl (a : bytes) : bytes_eqb a a = true.
Proof. now apply bytes_eqb_eq. Qed.

Section Resolvers.

Variable L : LocalState.
Variable H : History.
Variable U : EthUtils.
Variable World : Type.
Variable chain_service : BlockChainService World.

(** C3, as the code has it.  When the first on-chain query of a resolver,
    at the event's block hash, raises [ValueError] (the block is pruned),
    the resolver issues exactly one more query, the same one at
    [latest_confirmed_block], and never a third.  If the retry raises, that
    exception leaves the resolver.  If it answers, ChannelSettled returns
    the [ChannelSettleState] built from the answer, and ChannelNew returns
    the [NewChannelDetails] built from the answer when the token network
    registry of the originating contract is present in the local state,
    and raises the assertion error "Token network missing" when it is
    not. *)
Theorem pruned_block_retried_once_at_latest_confirmed :
  (forall chain_state (event : DecodedEvent ChannelArgs)
          latest_confirmed_block (s : Chain chain_service)
          channel_state msg w1 r w2,
      get_channelstate_by_canonical_identifier L chain_state
        (derived_identifier L chain_state event) = Some channel_state ->
      onchain_locksroots chain_service
        (canonical_identifier L channel_state)
        (our_state_address L channel_state)
        (partner_state_address L channel_state)
        (BlockHash (block_hash (event_data event))) (chain_node s)
      = (inl (ValueError msg), w1) ->
      onchain_locksroots chain_service
        (canonical_identifier L channel_state)
        (our_state_address L channel_state)
        (partner_state_address L channel_state)
        (BlockNum latest_confirmed_block) w1
      = (r, w2) ->
      get_contractreceivechannelsettled_data_from_event L chain_service
        chain_state event latest_confirmed_block s
      = (match r with
         | inl e => Raise e
         | inr roots =>
             Return (Some (mkChannelSettleState
                             (derived_identifier L chain_state event)
                             (fst roots) (snd roots)))
         end,
         mkChain w2
           (queries s ++
            [LocksrootsQuery (canonical_identifier L channel_state)
               (our_state_address L channel_state)
               (partner_state_address L channel_state)
               (BlockHash (block_hash (event_data event)))
               (inl (ValueError msg));
             LocksrootsQuery (canonical_identifier L channel_state)
               (our_state_address L channel_state)
               (partner_state_address L channel_state)
               (BlockNum latest_confirmed_block) r])))
  /\
  (forall chain_state (event : DecodedEvent ChannelNewArgs)
          latest_confirmed_block (s : Chain chain_service)
          proxy w1 msg w2 r w3,
      bytes_eqb (chain_state_our_address L chain_state)
        (participant1 (args (event_data event)))
      || bytes_eqb (chain_state_our_address L chain_state)
           (participant2 (args (event_data event))) = true ->
      new_payment_channel chain_service
        (mkCanonicalIdentifier (chain_id event) (originating_contract event)
           (new_channel_identifier (args (event_data event))))
        (chain_node s) = (inr proxy, w1) ->
      channel_detail chain_service proxy
        (BlockHash (block_hash (event_data event))) w1
      = (inl (ValueError msg), w2) ->
      channel_detail chain_service proxy (BlockNum latest_confirmed_block) w2
      = (r, w3) ->
      get_contractreceivechannelnew_data_from_event L chain_service
        chain_state event latest_confirmed_block s
      = (match r with
         | inl e => Raise e
         | inr channel_details =>
             match get_token_network_registry_by_token_network_address L
                     chain_state (originating_contract event) with
             | None => Raise (AssertionError (Some "Token network missing"))
             | Some token_network_registry =>
                 Return
                   (Some
                      (mkNewChannelDetails (chain_id event)
                         (registry_address L token_network_registry)
                         (token_address channel_details)
                         (address
                            (our_details (participants_data channel_details)))
                         (deposit
                            (our_details (participants_data channel_details)))
                         (address
                            (partner_details
                               (participants_data channel_details)))
                         (deposit
                            (partner_details
                               (participants_data channel_details)))))
             end
         end,
         mkChain w3
           (queries s ++
            [PaymentChannelQuery
               (mkCanonicalIdentifier (chain_id event)
                  (originating_contract event)
                  (new_channel_identifier (args (event_data event))))
               (inr proxy);
             DetailQuery proxy (BlockHash (block_hash (event_data event)))
               (inl (ValueError msg));
             DetailQuery proxy (BlockNum latest_confirmed_block) r]))).
Proof.
  split.
  - intros chain_state event latest_confirmed_block s channel_state msg w1
      r w2.
    intros Hch Hfirst Hretry.
    unfold get_contractreceivechannelsettled_data_from_event,
      derived_identifier in *.
    cbv zeta. rewrite Hch.
    unfold bind, try_except_ValueError, get_onchain_locksroots.
    rewrite Hfirst. cbn [answer chain_node queries]. rewrite Hretry.
    destruct r as [e | roots]; cbn [answer ret]; rewrite <- app_assoc;
      reflexivity.
  - intros chain_state event latest_confirmed_block s proxy w1 msg w2 r w3.
    intros Hpart Hproxy Hfirst Hretry.
    unfold get_contractreceivechannelnew_data_from_event.
    cbv zeta. rewrite Hpart. cbn [negb].
    unfold bind, try_except_ValueError, payment_channel, detail.
    rewrite Hproxy. cbn [answer chain_node queries]. rewrite Hfirst.
    cbn [answer chain_node queries]. rewrite Hretry.
    destruct r as [e | channel_details]; cbn [answer];
      rewrite <- !app_assoc; [reflexivity |].
    destruct (get_token_network_registry_by_token_network_address L
                chain_state (originating_contract event));
      reflexivity.
Qed.

(** The partner is one side of the event. *)
Lemma unlock_partner_side chain_state event partner :
  unlock_partner L chain_state event = Some partner ->
  partner = sender (args (event_data event)) \/
  partner = receiver (args (event_data event)).
Proof.
  unfold unlock_partner. cbv zeta.
  destruct (bytes_eqb (receiver _) _); [intros [= <-]; now left |].
  destruct (bytes_eqb (sender _) _); [intros [= <-]; now right |].
  discriminate.
Qed.

(** The loop stops at the first candidate with a matching record. *)
Lemma find_unlock_channel_first_match chain_state storage event partner :
  partner = sender (args (event_data event)) \/
  partner = receiver (args (event_data event)) ->
  forall channel_identifiers,
    find_unlock_channel H storage (chain_state_chain_id L chain_state)
      (originating_contract event) (args (event_data event)) partner
      channel_identifiers
    = match channel_identifiers with
      | [] => None
      | c :: rest =>
          match matching_record L H chain_state storage event partner c with
          | Some record =>
              Some (data_balance_proof_canonical_identifier H record)
          | None =>
              find_unlock_channel H storage
                (chain_state_chain_id L chain_state)
                (originating_contract event) (args (event_data event))
                partner rest
          end
      end.
Proof.
  intros Hside [| c rest]; [reflexivity |].
  unfold matching_record, candidate. cbn [find_unlock_channel]. cbv zeta.
  destruct (bytes_eqb partner (sender (args (event_data event)))) eqn:Hs;
    [reflexivity |].
  destruct Hside as [-> | ->].
  - rewrite bytes_eqb_refl in Hs. discriminate.
  - rewrite bytes_eqb_refl. reflexivity.
Qed.

Lemma find_unlock_channel_none chain_state storage event partner :
  partner = sender (args (event_data event)) \/
  partner = receiver (args (event_data event)) ->
  forall channel_identifiers,
    (forall c, In c channel_identifiers ->
               matching_record L H chain_state storage event partner c
               = None) ->
    find_unlock_channel H storage (chain_state_chain_id L chain_state)
      (originating_contract event) (args (event_data event)) partner
      channel_identifiers = None.
Proof.
  intros Hside ids. induction ids as [| c rest IH]; intros Hnone;
    rewrite (find_unlock_channel_first_match _ _ _ _ Hside);
    [reflexivity |].
  rewrite (Hnone c (or_introl eq_refl)). apply IH.
  intros c' Hin. apply Hnone. now right.
Qed.

Lemma find_unlock_channel_unique chain_state storage event partner c record :
  partner = sender (args (event_data event)) \/
  partner = receiver (args (event_data event)) ->
  matching_record L H chain_state storage event partner c = Some record ->
  forall channel_identifiers,
    In c channel_identifiers ->
    (forall c', In c' channel_identifiers -> c' <> c ->
                matching_record L H chain_state storage event partner c'
                = None) ->
    find_unlock_channel H storage (chain_state_chain_id L chain_state)
      (originating_contract event) (args (event_data event)) partner
      channel_identifiers
    = Some (data_balance_proof_canonical_identifier H record).
Proof.
  intros Hside Hmatch ids. induction ids as [| c' rest IH];
    intros Hin Hothers; [destruct Hin |].
  rewrite (find_unlock_channel_first_match _ _ _ _ Hside).
  destruct (Z.eq_dec c' c) as [-> | Hne].
  - rewrite Hmatch. reflexivity.
  - rewrite (Hothers c' (or_introl eq_refl) Hne). apply IH.
    + destruct Hin as [Heq | Hin]; [contradiction | exact Hin].
    + intros c'' Hin'. apply Hothers. now right.
Qed.

(** The resolver once the token network and the partner are known. *)
Lemma batchunlock_of_partner chain_state storage event
    token_network_state partner channel_identifiers :
  get_token_network_by_address L chain_state (originating_contract event)
  = Some token_network_state ->
  unlock_partner L chain_state event = Some partner ->
  partneraddresses_to_channelidentifiers L token_network_state partner
  = Some channel_identifiers ->
  get_contractreceivechannelbatchunlock_data_from_event L H U chain_state
    storage event
  = match find_unlock_channel H storage (chain_state_chain_id L chain_state)
            (originating_contract event) (args (event_data event)) partner
            channel_identifiers with
    | None =>
        Raise (AssertionError
                 (Some (unlock_msg U (locksroot (args (event_data event)))
                          partner)))
    | Some canonical_identifier => Return (Some canonical_identifier)
    end.
Proof.
  intros Htn Hpartner Hids.
  unfold get_contractreceivechannelbatchunlock_data_from_event,
    unlock_partner in *.
  cbv zeta in *. rewrite Htn.
  destruct (bytes_eqb (receiver _) _).
  - injection Hpartner as <-. rewrite Hids. reflexivity.
  - destruct (bytes_eqb (sender _) _); [| discriminate].
    injection Hpartner as <-. rewrite Hids. reflexivity.
Qed.

(** C5: when the partner of a batch-unlock event has candidate channel
    identifiers in the local state and no candidate has a stored
    balance-proof record matching the event's locksroot, the resolver does
    not return: it raises an assertion error whose message names the
    locksroot and the partner address. *)
Theorem batchunlock_without_record_raises chain_state storage event
    token_network_state partner channel_identifiers :
  get_token_network_by_address L chain_state (originating_contract event)
  = Some token_network_state ->
  unlock_partner L chain_state event = Some partner ->
  partneraddresses_to_channelidentifiers L token_network_state partner
  = Some channel_identifiers ->
  (forall c, In c channel_identifiers ->
             matching_record L H chain_state storage event partner c
             = None) ->
  get_contractreceivechannelbatchunlock_data_from_event L H U chain_state
    storage event
  = Raise (AssertionError
             (Some ("Can not resolve channel_id for unlock with locksroot "
                    ++ to_hex U (locksroot (args (event_data event)))
                    ++ " and partner " ++ to_checksum_address U partner
                    ++ ".")%string)).
Proof.
  intros Htn Hpartner Hids Hnone.
  rewrite (batchunlock_of_partner _ _ _ _ _ _ Htn Hpartner Hids).
  rewrite find_unlock_channel_none;
    [reflexivity | now apply unlock_partner_side with chain_state | exact Hnone].
Qed.

(** C6: when exactly one candidate channel identifier of the partner has a
    stored balance proof matching the event's locksroot, the resolver
    returns the canonical identifier of that channel, in whatever order the
    local state enumerates the candidates.  (The stored record is the one
    of the channel it was looked up under.) *)
Theorem batchunlock_unique_match_any_order chain_state storage event
    token_network_state partner candidates enumeration c record :
  get_token_network_by_address L chain_state (originating_contract event)
  = Some token_network_state ->
  unlock_partner L chain_state event = Some partner ->
  Permutation candidates enumeration ->
  partneraddresses_to_channelidentifiers L token_network_state partner
  = Some enumeration ->
  In c candidates ->
  matching_record L H chain_state storage event partner c = Some record ->
  data_balance_proof_canonical_identifier H record
  = candidate L chain_state event c ->
  (forall c', In c' candidates -> c' <> c ->
              matching_record L H chain_state storage event partner c'
              = None) ->
  get_contractreceivechannelbatchunlock_data_from_event L H U chain_state
    storage event
  = Return (Some (mkCanonicalIdentifier (chain_state_chain_id L chain_state)
                    (originating_contract event) c)).
Proof.
  intros Htn Hpartner Hperm Hids Hin Hmatch Hrecord Hothers.
  rewrite (batchunlock_of_partner _ _ _ _ _ _ Htn Hpartner Hids).
  rewrite (find_unlock_channel_unique chain_state storage event partner c
             record).
  - rewrite Hrecord. reflexivity.
  - now apply unlock_partner_side with chain_state.
  - exact Hmatch.
  - now apply (Permutation_in c Hperm).
  - intros c' Hin'. apply Hothers.
    now apply (Permutation_in c' (Permutation_sym Hperm)).
Qed.

(** C7, as the code has it: when neither participant of the event is the
    local node, the ChannelNew resolver returns None, without a query; the
    ChannelBatchUnlock resolver returns None when the originating token
    network is present in the local state. *)
Theorem not_a_participant_returns_none :
  (forall chain_state (event : DecodedEvent ChannelNewArgs)
          latest_confirmed_block (s : Chain chain_service),
      participant1 (args (event_data event))
      <> chain_state_our_address L chain_state ->
      participant2 (args (event_data event))
      <> chain_state_our_address L chain_state ->
      get_contractreceivechannelnew_data_from_event L chain_service
        chain_state event latest_confirmed_block s
      = (Return None, s))
  /\
  (forall chain_state storage (event : DecodedEvent ChannelBatchUnlockArgs)
          token_network_state,
      sender (args (event_data event))
      <> chain_state_our_address L chain_state ->
      receiver (args (event_data event))
      <> chain_state_our_address L chain_state ->
      get_token_network_by_address L chain_state (originating_contract event)
      = Some token_network_state ->
      get_contractreceivechannelbatchunlock_data_from_event L H U
        chain_state storage event
      = Return None).
Proof.
  split.
  - intros chain_state event lcb s H1 H2.
    unfold get_contractreceivechannelnew_data_from_event. cbv zeta.
    rewrite !bytes_eqb_neq by congruence. reflexivity.
  - intros chain_state storage event tn Hs Hr Htn.
    unfold get_contractreceivechannelbatchunlock_data_from_event. cbv zeta.
    rewrite Htn, !bytes_eqb_neq by assumption. reflexivity.
Qed.

(** C8: the ChannelClosed and UpdateTransfer resolvers only look the
    derived canonical identifier up in the local state (they are given no
    chain service, so they cannot query the chain).  Without a channel
    state for it both return None; with one, ChannelClosed returns the
    channel state's canonical identifier and UpdateTransfer the channel
    state itself. *)
Theorem closed_and_updatetransfer_follow_local_state
    chain_state (event : DecodedEvent ChannelArgs) :
  match get_channelstate_by_canonical_identifier L chain_state
          (derived_identifier L chain_state event) with
  | None =>
      get_contractreceivechannelclosed_data_from_event L chain_state event
      = None /\
      get_contractreceiveupdatetransfer_data_from_event L chain_state event
      = None
  | Some channel_state =>
      get_contractreceivechannelclosed_data_from_event L chain_state event
      = Some (canonical_identifier L channel_state) /\
      get_contractreceiveupdatetransfer_data_from_event L chain_state event
      = Some channel_state
  end.
Proof.
  unfold get_contractreceivechannelclosed_data_from_event,
    get_contractreceiveupdatetransfer_data_from_event, derived_identifier.
  cbv zeta.
  destruct (get_channelstate_by_canonical_identifier L chain_state _);
    split; reflexivity.
Qed.

(** C9: the batch-unlock resolver asserts the token network before it
    looks at the participants.  For an event whose originating contract has
    no token network in the local state the call raises the assertion
    error, whoever the sender and the receiver are; so it does not return
    None there. *)
Theorem batchunlock_asserts_token_network_first chain_state storage
    (event : DecodedEvent ChannelBatchUnlockArgs) :
  get_token_network_by_address L chain_state (originating_contract event)
  = None ->
  get_contractreceivechannelbatchunlock_data_from_event L H U chain_state
    storage event = Raise (AssertionError None) /\
  get_contractreceivechannelbatchunlock_data_from_event L H U chain_state
    storage event <> Return None.
Proof.
  intros Htn.
  unfold get_contractreceivechannelbatchunlock_data_from_event. cbv zeta.
  rewrite Htn. split; [reflexivity | discriminate].
Qed.

(** *** Further properties of the resolvers *)

(** X10.  A ChannelSettled event for a channel the local state does not
    hold is answered with None and without any on-chain query. *)
Theorem settled_unknown_channel_no_query chain_state
    (event : DecodedEvent ChannelArgs) latest_confirmed_block
    (s : Chain chain_service) :
  get_channelstate_by_canonical_identifier L chain_state
    (derived_identifier L chain_state event) = None ->
  get_contractreceivechannelsettled_data_from_event L chain_service
    chain_state event latest_confirmed_block s
  = (Return None, s).
Proof.
  intros Hch.
  unfold get_contractreceivechannelsettled_data_from_event,
    derived_identifier in *.
  cbv zeta. rewrite Hch. reflexivity.
Qed.

(** X11.  Only [ValueError] is taken for a pruned block.  When the query at
    the event's block hash raises any other exception, the resolver raises
    it after that one query and does not retry.  This holds for
    ChannelSettled and for ChannelNew. *)
Theorem other_exceptions_are_not_retried :
  (forall chain_state (event : DecodedEvent ChannelArgs)
          latest_confirmed_block (s : Chain chain_service)
          channel_state e w1,
      get_channelstate_by_canonical_identifier L chain_state
        (derived_identifier L chain_state event) = Some channel_state ->
      onchain_locksroots chain_service
        (canonical_identifier L channel_state)
        (our_state_address L channel_state)
        (partner_state_address L channel_state)
        (BlockHash (block_hash (event_data event))) (chain_node s)
      = (inl e, w1) ->
      is_ValueError e = false ->
      get_contractreceivechannelsettled_data_from_event L chain_service
        chain_state event latest_confirmed_block s
      = (Raise e,
         mkChain w1
           (queries s ++
            [LocksrootsQuery (canonical_identifier L channel_state)
               (our_state_address L channel_state)
               (partner_state_address L channel_state)
               (BlockHash (block_hash (event_data event))) (inl e)])))
  /\
  (forall chain_state (event : DecodedEvent ChannelNewArgs)
          latest_confirmed_block (s : Chain chain_service)
          proxy w1 e w2,
      bytes_eqb (chain_state_our_address L chain_state)
        (participant1 (args (event_data event)))
      || bytes_eqb (chain_state_our_address L chain_state)
           (participant2 (args (event_data event))) = true ->
      new_payment_channel chain_service
        (mkCanonicalIdentifier (chain_id event) (originating_contract event)
           (new_channel_identifier (args (event_data event))))
        (chain_node s) = (inr proxy, w1) ->
      channel_detail chain_service proxy
        (BlockHash (block_hash (event_data event))) w1
      = (inl e, w2) ->
      is_ValueError e = false ->
      get_contractreceivechannelnew_data_from_event L chain_service
        chain_state event latest_confirmed_block s
      = (Raise e,
         mkChain w2
           (queries s ++
            [PaymentChannelQuery
               (mkCanonicalIdentifier (chain_id event)
                  (originating_contract event)
                  (new_channel_identifier (args (event_data event))))
               (inr proxy);
             DetailQuery proxy (BlockHash (block_hash (event_data event)))
               (inl e)]))).
Proof.
  split.
  - intros chain_state event lcb s channel_state e w1 Hch Hfirst He.
    unfold get_contractreceivechannelsettled_data_from_event,
      derived_identifier in *.
    cbv zeta. rewrite Hch.
    unfold bind, try_except_ValueError, get_onchain_locksroots.
    rewrite Hfirst. destruct e; try discriminate; reflexivity.
  - intros chain_state event lcb s proxy w1 e w2 Hpart Hproxy Hfirst He.
    unfold get_contractreceivechannelnew_data_from_event.
    cbv zeta. rewrite Hpart. cbn [negb].
    unfold bind, try_except_ValueError, payment_channel, detail.
    rewrite Hproxy. cbn [answer chain_node queries]. rewrite Hfirst.
    destruct e; try discriminate; cbn [answer]; rewrite <- app_assoc;
      reflexivity.
Qed.

(** X12.  When the query at the event's block hash is answered, there is
    no second query: the result is built from that answer.  For ChannelNew
    this is subject to the registry being present, as after a retry. *)
Theorem answered_query_is_not_repeated :
  (forall chain_state (event : DecodedEvent ChannelArgs)
          latest_confirmed_block (s : Chain chain_service)
          channel_state roots w1,
      get_channelstate_by_canonical_identifier L chain_state
        (derived_identifier L chain_state event) = Some channel_state ->
      onchain_locksroots chain_service
        (canonical_identifier L channel_state)
        (our_state_address L channel_state)
        (partner_state_address L channel_state)
        (BlockHash (block_hash (event_data event))) (chain_node s)
      = (inr roots, w1) ->
      get_contractreceivechannelsettled_data_from_event L chain_service
        chain_state event latest_confirmed_block s
      = (Return (Some (mkChannelSettleState
                         (derived_identifier L chain_state event)
                         (fst roots) (snd roots))),
         mkChain w1
           (queries s ++
            [LocksrootsQuery (canonical_identifier L channel_state)
               (our_state_address L channel_state)
               (partner_state_address L channel_state)
               (BlockHash (block_hash (event_data event))) (inr roots)])))
  /\
  (forall chain_state (event : DecodedEvent ChannelNewArgs)
          latest_confirmed_block (s : Chain chain_service)
          proxy w1 channel_details w2 token_network_registry,
      bytes_eqb (chain_state_our_address L chain_state)
        (participant1 (args (event_data event)))
      || bytes_eqb (chain_state_our_address L chain_state)
           (participant2 (args (event_data event))) = true ->
      new_payment_channel chain_service
        (mkCanonicalIdentifier (chain_id event) (originating_contract event)
           (new_channel_identifier (args (event_data event))))
        (chain_node s) = (inr proxy, w1) ->
      channel_detail chain_service proxy
        (BlockHash (block_hash (event_data event))) w1
      = (inr channel_details, w2) ->
      get_token_network_registry_by_token_network_address L chain_state
        (originating_contract event) = Some token_network_registry ->
      get_contractreceivechannelnew_data_from_event L chain_service
        chain_state event latest_confirmed_block s
      = (Return
           (Some
              (mkNewChannelDetails (chain_id event)
                 (registry_address L token_network_registry)
                 (token_address channel_details)
                 (address (our_details (participants_data channel_details)))
                 (deposit (our_details (participants_data channel_details)))
                 (address
                    (partner_details (participants_data channel_details)))
                 (deposit
                    (partner_details (participants_data channel_details))))),
         mkChain w2
           (queries s ++
            [PaymentChannelQuery
               (mkCanonicalIdentifier (chain_id event)
                  (originating_contract event)
                  (new_channel_identifier (args (event_data event))))
               (inr proxy);
             DetailQuery proxy (BlockHash (block_hash (event_data event)))
               (inr channel_details)]))).
Proof.
  split.
  - intros chain_state event lcb s channel_state roots w1 Hch Hfirst.
    unfold get_contractreceivechannelsettled_data_from_event,
      derived_identifier in *.
    cbv zeta. rewrite Hch.
    unfold bind, try_except_ValueError, get_onchain_locksroots.
    rewrite Hfirst. reflexivity.
  - intros chain_state event lcb s proxy w1 channel_details w2 registry
      Hpart Hproxy Hfirst Hreg.
    unfold get_contractreceivechannelnew_data_from_event.
    cbv zeta. rewrite Hpart. cbn [negb].
    unfold bind, try_except_ValueError, payment_channel, detail.
    rewrite Hproxy. cbn [answer chain_node queries]. rewrite Hfirst.
    cbn [answer]. rewrite Hreg, <- app_assoc. reflexivity.
Qed.

(** X13.  The creation of the channel proxy is outside the [try]: when
    [chain_service.payment_channel] raises, whatever the exception (a
    [ValueError] too), the ChannelNew resolver raises it and asks for no
    channel detail at all. *)
Theorem payment_channel_failure_is_not_retried chain_state
    (event : DecodedEvent ChannelNewArgs) latest_confirmed_block
    (s : Chain chain_service) e w1 :
  bytes_eqb (chain_state_our_address L chain_state)
    (participant1 (args (event_data event)))
  || bytes_eqb (chain_state_our_address L chain_state)
       (participant2 (args (event_data event))) = true ->
  new_payment_channel chain_service
    (mkCanonicalIdentifier (chain_id event) (originating_contract event)
       (new_channel_identifier (args (event_data event))))
    (chain_node s) = (inl e, w1) ->
  get_contractreceivechannelnew_data_from_event L chain_service
    chain_state event latest_confirmed_block s
  = (Raise e,
     mkChain w1
       (queries s ++
        [PaymentChannelQuery
           (mkCanonicalIdentifier (chain_id event)
              (originating_contract event)
              (new_channel_identifier (args (event_data event))))
           (inl e)])).
Proof.
  intros Hpart Hproxy.
  unfold get_contractreceivechannelnew_data_from_event.
  cbv zeta. rewrite Hpart. cbn [negb].
  unfold bind, payment_channel. rewrite Hproxy. reflexivity.
Qed.

(** X14.  Whatever the node answers, ChannelSettled asks it at most two
    queries and ChannelNew at most three (the proxy and two details). *)
Theorem resolvers_bound_their_queries :
  (forall chain_state (event : DecodedEvent ChannelArgs)
          latest_confirmed_block (s : Chain chain_service),
      exists qs,
        queries (snd (get_contractreceivechannelsettled_data_from_event L
                        chain_service chain_state event
                        latest_confirmed_block s))
        = queries s ++ qs /\
        (List.length qs <= 2)%nat)
  /\
  (forall chain_state (event : DecodedEvent ChannelNewArgs)
          latest_confirmed_block (s : Chain chain_service),
      exists qs,
        queries (snd (get_contractreceivechannelnew_data_from_event L
                        chain_service chain_state event
                        latest_confirmed_block s))
        = queries s ++ qs /\
        (List.length qs <= 3)%nat).
Proof.
  split; intros chain_state event lcb s.
  - unfold get_contractreceivechannelsettled_data_from_event. cbv zeta.
    destruct (get_channelstate_by_canonical_identifier L chain_state _)
      as [channel_state |];
      [| exists []; rewrite app_nil_r; split; [reflexivity | simpl; lia]].
    unfold bind, try_except_ValueError, get_onchain_locksroots, ret.
    destruct (onchain_locksroots chain_service _ _ _ (BlockHash _) _)
      as [[[] | roots] w1]; cbn [answer chain_node queries snd];
      try (eexists [_]; split; [reflexivity | simpl; lia]).
    destruct (onchain_locksroots chain_service _ _ _ (BlockNum _) _)
      as [[e | roots] w2]; cbn [answer snd queries];
      rewrite <- app_assoc;
      (eexists [_; _]; split; [reflexivity | simpl; lia]).
  - unfold get_contractreceivechannelnew_data_from_event. cbv zeta.
    destruct (negb _);
      [exists []; rewrite app_nil_r; split; [reflexivity | simpl; lia] |].
    unfold bind, try_except_ValueError, payment_channel, detail, ret, raise.
    destruct (new_payment_channel chain_service _ _) as [[e | proxy] w1];
      cbn [answer chain_node queries snd];
      [eexists [_]; split; [reflexivity | simpl; lia] |].
    destruct (channel_detail chain_service proxy (BlockHash _) _)
      as [[[] | d] w2]; cbn [answer chain_node queries snd];
      try (rewrite <- app_assoc;
           eexists [_; _]; split; [reflexivity | simpl; lia]).
    + destruct (channel_detail chain_service proxy (BlockNum _) _)
        as [[e | d] w3]; cbn [answer snd queries];
        [rewrite <- !app_assoc;
         eexists [_; _; _]; split; [reflexivity | simpl; lia] |].
      destruct (get_token_network_registry_by_token_network_address L
                  chain_state _);
        cbn [snd queries]; rewrite <- !app_assoc;
        (eexists [_; _; _]; split; [reflexivity | simpl; lia]).
    + destruct (get_token_network_registry_by_token_network_address L
                  chain_state _);
        cbn [snd queries]; rewrite <- !app_assoc;
        (eexists [_; _]; split; [reflexivity | simpl; lia]).
Qed.

Lemma find_unlock_channel_some chain_state storage event partner :
  partner = sender (args (event_data event)) \/
  partner = receiver (args (event_data event)) ->
  forall channel_identifiers found,
    find_unlock_channel H storage (chain_state_chain_id L chain_state)
      (originating_contract event) (args (event_data event)) partner
      channel_identifiers = Some found ->
    exists c record,
      In c channel_identifiers /\
      matching_record L H chain_state storage event partner c = Some record /\
      data_balance_proof_canonical_identifier H record = found.
Proof.
  intros Hside ids found. induction ids as [| c rest IH];
    rewrite (find_unlock_channel_first_match _ _ _ _ Hside);
    [discriminate |].
  destruct (matching_record L H chain_state storage event partner c)
    as [record |] eqn:Hm.
  - intros [= <-]. exists c, record. repeat split; [now left | exact Hm].
  - intros Hrest. destruct (IH Hrest) as (c' & record & Hin & Hm' & Hd).
    exists c', record. repeat split; [now right | exact Hm' | exact Hd].
Qed.

Lemma find_unlock_channel_skips chain_state storage event partner :
  partner = sender (args (event_data event)) \/
  partner = receiver (args (event_data event)) ->
  forall before rest,
    (forall c, In c before ->
               matching_record L H chain_state storage event partner c
               = None) ->
    find_unlock_channel H storage (chain_state_chain_id L chain_state)
      (originating_contract event) (args (event_data event)) partner
      (before ++ rest)
    = find_unlock_channel H storage (chain_state_chain_id L chain_state)
        (originating_contract event) (args (event_data event)) partner
        rest.
Proof.
  intros Hside before rest. induction before as [| c before IH];
    intros Hnone; [reflexivity |].
  rewrite <- app_comm_cons,
    (find_unlock_channel_first_match _ _ _ _ Hside),
    (Hnone c (or_introl eq_refl)).
  apply IH. intros c' Hin. apply Hnone. now right.
Qed.

Lemma batchunlock_cases chain_state storage event :
  get_contractreceivechannelbatchunlock_data_from_event L H U chain_state
    storage event
  = match get_token_network_by_address L chain_state
            (originating_contract event) with
    | None => Raise (AssertionError None)
    | Some token_network_state =>
        match unlock_partner L chain_state event with
        | None => Return None
        | Some partner =>
            match partneraddresses_to_channelidentifiers L
                    token_network_state partner with
            | None => Raise (KeyError partner)
            | Some channel_identifiers =>
                match find_unlock_channel H storage
                        (chain_state_chain_id L chain_state)
                        (originating_contract event)
                        (args (event_data event)) partner
                        channel_identifiers with
                | None =>
                    Raise (AssertionError
                             (Some (unlock_msg U
                                      (locksroot (args (event_data event)))
                                      partner)))
                | Some canonical_identifier =>
                    Return (Some canonical_identifier)
                end
            end
        end
    end.
Proof.
  unfold get_contractreceivechannelbatchunlock_data_from_event,
    unlock_partner.
  cbv zeta.
  destruct (get_token_network_by_address L chain_state _); [| reflexivity].
  destruct (bytes_eqb (receiver _) _); [reflexivity |].
  destruct (bytes_eqb (sender _) _); reflexivity.
Qed.

(** X15.  The batch-unlock resolver takes the first candidate, in the
    order the local state lists them, that has a matching record: later
    candidates are not looked at, also when they have one too. *)
Theorem batchunlock_first_match_wins chain_state storage event
    token_network_state partner before c rest record :
  get_token_network_by_address L chain_state (originating_contract event)
  = Some token_network_state ->
  unlock_partner L chain_state event = Some partner ->
  partneraddresses_to_channelidentifiers L token_network_state partner
  = Some (before ++ c :: rest) ->
  (forall c', In c' before ->
              matching_record L H chain_state storage event partner c'
              = None) ->
  matching_record L H chain_state storage event partner c = Some record ->
  get_contractreceivechannelbatchunlock_data_from_event L H U chain_state
    storage event
  = Return (Some (data_balance_proof_canonical_identifier H record)).
Proof.
  intros Htn Hpartner Hids Hbefore Hmatch.
  pose proof (unlock_partner_side _ _ _ Hpartner) as Hside.
  rewrite batchunlock_cases, Htn, Hpartner, Hids.
  rewrite (find_unlock_channel_skips _ _ _ _ Hside _ _ Hbefore),
    (find_unlock_channel_first_match _ _ _ _ Hside), Hmatch.
  reflexivity.
Qed.

(** X16.  A canonical identifier returned by the batch-unlock resolver is
    always the one of a stored record that matches the event for one of
    the partner's candidate channels. *)
Theorem batchunlock_result_comes_from_a_record chain_state storage event
    found :
  get_contractreceivechannelbatchunlock_data_from_event L H U chain_state
    storage event = Return (Some found) ->
  exists token_network_state partner channel_identifiers c record,
    get_token_network_by_address L chain_state (originating_contract event)
    = Some token_network_state /\
    unlock_partner L chain_state event = Some partner /\
    partneraddresses_to_channelidentifiers L token_network_state partner
    = Some channel_identifiers /\
    In c channel_identifiers /\
    matching_record L H chain_state storage event partner c = Some record /\
    data_balance_proof_canonical_identifier H record = found.
Proof.
  rewrite batchunlock_cases.
  destruct (get_token_network_by_address L chain_state _) as [tn |] eqn:Htn;
    [| discriminate].
  destruct (unlock_partner L chain_state event) as [partner |] eqn:Hp;
    [| discriminate].
  destruct (partneraddresses_to_channelidentifiers L tn partner)
    as [ids |] eqn:Hids; [| discriminate].
  destruct (find_unlock_channel H storage _ _ _ partner ids)
    as [cid |] eqn:Hfind; [| discriminate].
  intros [= <-].
  destruct (find_unlock_channel_some _ _ _ _
              (unlock_partner_side _ _ _ Hp) _ _ Hfind)
    as (c & record & Hin & Hm & Hd).
  exists tn, partner, ids, c, record.
  repeat split; try reflexivity; assumption.
Qed.

(** X17.  The batch-unlock resolver returns None only for an event that
    does not concern the local node: the token network is known and
    neither the sender nor the receiver is the local address.  A missing
    record is never reported as None. *)
Theorem batchunlock_none_means_not_a_participant chain_state storage event :
  get_contractreceivechannelbatchunlock_data_from_event L H U chain_state
    storage event = Return None ->
  get_token_network_by_address L chain_state (originating_contract event)
  <> None /\
  receiver (args (event_data event))
  <> chain_state_our_address L chain_state /\
  sender (args (event_data event))
  <> chain_state_our_address L chain_state.
Proof.
  rewrite batchunlock_cases.
  destruct (get_token_network_by_address L chain_state _) as [tn |];
    [| discriminate].
  unfold unlock_partner. cbv zeta.
  destruct (bytes_eqb (receiver _) _) eqn:Hr.
  - destruct (partneraddresses_to_channelidentifiers L tn _);
      [destruct (find_unlock_channel H storage _ _ _ _ _) |]; discriminate.
  - destruct (bytes_eqb (sender _) _) eqn:Hs.
    + destruct (partneraddresses_to_channelidentifiers L tn _);
        [destruct (find_unlock_channel H storage _ _ _ _ _) |];
        discriminate.
    + intros _. repeat split; [discriminate | |];
        intros Heq; apply bytes_eqb_eq in Heq; congruence.
Qed.

(** X18.  The ChannelNew resolver returns details only for an event the
    local node is a participant of, and only when the token network
    registry of the originating contract is known; the details carry the
    event's chain id and that registry's address. *)
Theorem new_details_need_participant_and_registry chain_state
    (event : DecodedEvent ChannelNewArgs) latest_confirmed_block
    (s : Chain chain_service) details :
  fst (get_contractreceivechannelnew_data_from_event L chain_service
         chain_state event latest_confirmed_block s)
  = Return (Some details) ->
  (participant1 (args (event_data event))
   = chain_state_our_address L chain_state \/
   participant2 (args (event_data event))
   = chain_state_our_address L chain_state) /\
  new_chain_id details = chain_id event /\
  exists token_network_registry,
    get_token_network_registry_by_token_network_address L chain_state
      (originating_contract event) = Some token_network_registry /\
    payment_network_address details
    = registry_address L token_network_registry.
Proof.
  unfold get_contractreceivechannelnew_data_from_event. cbv zeta.
  destruct (bytes_eqb _ (participant1 _)
            || bytes_eqb _ (participant2 _)) eqn:Hpart;
    cbn [negb]; [| discriminate].
  unfold bind, try_except_ValueError, payment_channel, detail, ret, raise.
  destruct (new_payment_channel chain_service _ _) as [[e | proxy] w1];
    cbn [answer chain_node queries fst]; [discriminate |].
  assert (Hp :
            participant1 (args (event_data event))
            = chain_state_our_address L chain_state \/
            participant2 (args (event_data event))
            = chain_state_our_address L chain_state).
  { apply orb_true_iff in Hpart.
    destruct Hpart as [Heq | Heq]; apply bytes_eqb_eq in Heq; auto. }
  destruct (channel_detail chain_service proxy (BlockHash _) _)
    as [[[] | d] w2]; cbn [answer chain_node queries fst];
    try discriminate.
  - destruct (channel_detail chain_service proxy (BlockNum _) _)
      as [[e | d] w3]; cbn [answer fst]; [discriminate |].
    destruct (get_token_network_registry_by_token_network_address L
                chain_state _) as [registry |]; [| discriminate].
    intros [= <-]. repeat split; [exact Hp |].
    exists registry. split; reflexivity.
  - destruct (get_token_network_registry_by_token_network_address L
                chain_state _) as [registry |]; [| discriminate].
    intros [= <-]. repeat split; [exact Hp |].
    exists registry. split; reflexivity.
Qed.

End Resolvers.

(** *** The properties at node A *)

(** C3 on the pruning node: ChannelSettled for channel 7 and ChannelNew for
    the channel between A and B, both retried once at block 90. *)
Lemma pruned_block_retried_once_witness :
  get_contractreceivechannelsettled_data_from_event example_local
    pruned_node state_A settled_7 90 (mkChain 0%nat [])
  = (Return (Some (mkChannelSettleState (mkCanonicalIdentifier 1 TN1 7)
                     ROOT1 ROOT2)),
     mkChain 2%nat
       [LocksrootsQuery (mkCanonicalIdentifier 1 TN1 7) node_A node_B
          (BlockHash HASH1) (inl (ValueError "missing trie node"));
        LocksrootsQuery (mkCanonicalIdentifier 1 TN1 7) node_A node_B
          (BlockNum 90) (inr (ROOT1, ROOT2))])
  /\
  get_contractreceivechannelnew_data_from_event example_local
    pruned_node state_A opened_AB 90 (mkChain 0%nat [])
  = (Return (Some (mkNewChannelDetails 1 REGISTRY1 TOKEN1 node_A 10
                     node_B 20)),
     mkChain 3%nat
       [PaymentChannelQuery (chain_service := pruned_node)
          (mkCanonicalIdentifier 1 TN1 7)
          (inr (mkCanonicalIdentifier 1 TN1 7));
        DetailQuery (chain_service := pruned_node)
          (mkCanonicalIdentifier 1 TN1 7)
          (BlockHash HASH1) (inl (ValueError "missing trie node"));
        DetailQuery (chain_service := pruned_node)
          (mkCanonicalIdentifier 1 TN1 7)
          (BlockNum 90) (inr details_AB)]).
Proof.
  split.
  - exact (proj1 (pruned_block_retried_once_at_latest_confirmed
                    example_local nat pruned_node)
             state_A settled_7 90 (mkChain 0%nat []) channel_7
             "missing trie node" 1%nat (inr (ROOT1, ROOT2)) 2%nat
             eq_refl eq_refl eq_refl).
  - exact (proj2 (pruned_block_retried_once_at_latest_confirmed
                    example_local nat pruned_node)
             state_A opened_AB 90 (mkChain 0%nat [])
             (mkCanonicalIdentifier 1 TN1 7) 1%nat
             "missing trie node" 2%nat (inr details_AB) 3%nat
             eq_refl eq_refl eq_refl eq_refl).
Defined.

(** C3 as stated fails at node A before it knows any token network: the
    ChannelNew query at the event's block hash raises [ValueError], the one
    retry at block 90 is answered, and the resolver raises instead of
    returning the details built from the retry. *)
Lemma new_retry_answered_but_registry_missing :
  let r :=
    get_contractreceivechannelnew_data_from_event example_local
      pruned_node state_A_empty opened_AB 90 (mkChain 0%nat []) in
  fst r = Raise (AssertionError (Some "Token network missing")) /\
  queries (snd r)
  = [PaymentChannelQuery (chain_service := pruned_node)
       (mkCanonicalIdentifier 1 TN1 7)
       (inr (mkCanonicalIdentifier 1 TN1 7));
     DetailQuery (chain_service := pruned_node)
       (mkCanonicalIdentifier 1 TN1 7)
       (BlockHash HASH1) (inl (ValueError "missing trie node"));
     DetailQuery (chain_service := pruned_node)
       (mkCanonicalIdentifier 1 TN1 7)
       (BlockNum 90) (inr details_AB)].
Proof. vm_compute. split; reflexivity. Qed.

(** C5 at node A: B has the candidates 5, 7 and 9, and nothing stored
    explains an unlock with locksroot ROOT2. *)
Lemma batchunlock_without_record_witness :
  get_contractreceivechannelbatchunlock_data_from_event example_local
    example_history example_utils state_A storage_7 unlock_BA_unknown
  = Raise (AssertionError
             (Some "Can not resolve channel_id for unlock with locksroot 0x52 and partner 0x0b.")).
Proof.
  apply (batchunlock_without_record_raises example_local example_history
           example_utils state_A storage_7 unlock_BA_unknown
           [(node_B, [5; 7; 9])] node_B [5; 7; 9]);
    try reflexivity.
  intros c [<- | [<- | [<- | []]]]; reflexivity.
Defined.

(** C6 at node A: of B's candidates only channel 7 has a stored balance
    proof with locksroot ROOT1; the state enumerates them as 5, 7, 9. *)
Lemma batchunlock_unique_match_witness :
  get_contractreceivechannelbatchunlock_data_from_event example_local
    example_history example_utils state_A storage_7 unlock_BA
  = Return (Some (mkCanonicalIdentifier 1 TN1 7)).
Proof.
  apply (batchunlock_unique_match_any_order example_local example_history
           example_utils state_A storage_7 unlock_BA
           [(node_B, [5; 7; 9])] node_B [7; 5; 9] [5; 7; 9] 7
           (mkCanonicalIdentifier 1 TN1 7));
    try reflexivity.
  - apply perm_swap.
  - left. reflexivity.
  - intros c' [<- | [<- | [<- | []]]] Hne;
      [exfalso; apply Hne; reflexivity | reflexivity | reflexivity].
Defined.

(** C7 at node A: events between C and D. *)
Lemma not_a_participant_witness :
  get_contractreceivechannelnew_data_from_event example_local pruned_node
    state_A opened_CD 90 (mkChain 0%nat [])
  = (Return None, mkChain 0%nat [])
  /\
  get_contractreceivechannelbatchunlock_data_from_event example_local
    example_history example_utils state_A storage_7 unlock_CD
  = Return None.
Proof.
  split.
  - apply (proj1 (not_a_participant_returns_none example_local
                    example_history example_utils nat pruned_node));
      discriminate.
  - apply (proj2 (not_a_participant_returns_none example_local
                    example_history example_utils nat pruned_node)
             state_A storage_7 unlock_CD [(node_B, [5; 7; 9])]);
      [discriminate | discriminate | reflexivity].
Defined.

(** C7 as stated fails at node A before it knows any token network: neither
    C nor D is the local node, and the batch-unlock resolver raises. *)
Lemma batchunlock_of_strangers_raises_without_token_network :
  sender (args (event_data unlock_CD)) <> ex_our_address state_A_empty /\
  receiver (args (event_data unlock_CD)) <> ex_our_address state_A_empty /\
  get_contractreceivechannelbatchunlock_data_from_event example_local
    example_history example_utils state_A_empty storage_7 unlock_CD
  = Raise (AssertionError None).
Proof. repeat split; try discriminate. Qed.

(** C9 at node A before it knows any token network, for an event between
    C and D. *)
Lemma batchunlock_asserts_token_network_witness :
  get_contractreceivechannelbatchunlock_data_from_event example_local
    example_history example_utils state_A_empty storage_7 unlock_CD
  = Raise (AssertionError None) /\
  get_contractreceivechannelbatchunlock_data_from_event example_local
    example_history example_utils state_A_empty storage_7 unlock_CD
  <> Return None.
Proof.
  apply (batchunlock_asserts_token_network_first example_local
           example_history example_utils state_A_empty storage_7 unlock_CD).
  reflexivity.
Defined.

(** X10 at node A: channel 8 is not in the state. *)
Lemma settled_unknown_channel_witness :
  get_contractreceivechannelsettled_data_from_event example_local
    pruned_node state_A settled_8 90 (mkChain 0%nat [])
  = (Return None, mkChain 0%nat []).
Proof.
  apply (settled_unknown_channel_no_query example_local nat pruned_node
           state_A settled_8 90 (mkChain 0%nat [])).
  reflexivity.
Defined.

(** X11 on the slow node. *)
Lemma other_exceptions_are_not_retried_witness :
  get_contractreceivechannelsettled_data_from_event example_local
    slow_node state_A settled_7 90 (mkChain 0%nat [])
  = (Raise (OtherError "ReadTimeout"),
     mkChain 1%nat
       [LocksrootsQuery (mkCanonicalIdentifier 1 TN1 7) node_A node_B
          (BlockHash HASH1) (inl (OtherError "ReadTimeout"))])
  /\
  get_contractreceivechannelnew_data_from_event example_local
    slow_node state_A opened_AB 90 (mkChain 0%nat [])
  = (Raise (OtherError "ReadTimeout"),
     mkChain 2%nat
       [PaymentChannelQuery (chain_service := slow_node)
          (mkCanonicalIdentifier 1 TN1 7)
          (inr (mkCanonicalIdentifier 1 TN1 7));
        DetailQuery (chain_service := slow_node)
          (mkCanonicalIdentifier 1 TN1 7)
          (BlockHash HASH1) (inl (OtherError "ReadTimeout"))]).
Proof.
  split.
  - exact (proj1 (other_exceptions_are_not_retried example_local nat
                    slow_node)
             state_A settled_7 90 (mkChain 0%nat []) channel_7
             (OtherError "ReadTimeout") 1%nat eq_refl eq_refl eq_refl).
  - exact (proj2 (other_exceptions_are_not_retried example_local nat
                    slow_node)
             state_A opened_AB 90 (mkChain 0%nat [])
             (mkCanonicalIdentifier 1 TN1 7) 1%nat
             (OtherError "ReadTimeout") 2%nat
             eq_refl eq_refl eq_refl eq_refl).
Defined.

(** X12 on the archive node. *)
Lemma answered_query_is_not_repeated_witness :
  get_contractreceivechannelsettled_data_from_event example_local
    archive_node state_A settled_7 90 (mkChain 0%nat [])
  = (Return (Some (mkChannelSettleState (mkCanonicalIdentifier 1 TN1 7)
                     ROOT1 ROOT2)),
     mkChain 1%nat
       [LocksrootsQuery (mkCanonicalIdentifier 1 TN1 7) node_A node_B
          (BlockHash HASH1) (inr (ROOT1, ROOT2))])
  /\
  get_contractreceivechannelnew_data_from_event example_local
    archive_node state_A opened_AB 90 (mkChain 0%nat [])
  = (Return (Some (mkNewChannelDetails 1 REGISTRY1 TOKEN1 node_A 10
                     node_B 20)),
     mkChain 2%nat
       [PaymentChannelQuery (chain_service := archive_node)
          (mkCanonicalIdentifier 1 TN1 7)
          (inr (mkCanonicalIdentifier 1 TN1 7));
        DetailQuery (chain_service := archive_node)
          (mkCanonicalIdentifier 1 TN1 7)
          (BlockHash HASH1) (inr details_AB)]).
Proof.
  split.
  - exact (proj1 (answered_query_is_not_repeated example_local nat
                    archive_node)
             state_A settled_7 90 (mkChain 0%nat []) channel_7
             (ROOT1, ROOT2) 1%nat eq_refl eq_refl).
  - exact (proj2 (answered_query_is_not_repeated example_local nat
                    archive_node)
             state_A opened_AB 90 (mkChain 0%nat [])
             (mkCanonicalIdentifier 1 TN1 7) 1%nat details_AB 2%nat
             REGISTRY1 eq_refl eq_refl eq_refl eq_refl).
Defined.

(** X13 on the node without channels: the [ValueError] of
    [payment_channel] is not taken for a pruned block. *)
Lemma payment_channel_failure_witness :
  get_contractreceivechannelnew_data_from_event example_local
    no_channel_node state_A opened_AB 90 (mkChain 0%nat [])
  = (Raise (ValueError "Channel is non-existing."),
     mkChain 1%nat
       [PaymentChannelQuery (chain_service := no_channel_node)
          (mkCanonicalIdentifier 1 TN1 7)
          (inl (ValueError "Channel is non-existing."))]).
Proof.
  apply (payment_channel_failure_is_not_retried example_local nat
           no_channel_node state_A opened_AB 90 (mkChain 0%nat [])
           (ValueError "Channel is non-existing.") 1%nat);
    reflexivity.
Defined.

(** X15 at node A: the channels 7 and 9 both have a matching record, and
    the state lists 5, 7, 9. *)
Lemma batchunlock_first_match_witness :
  get_contractreceivechannelbatchunlock_data_from_event example_local
    example_history example_utils state_A storage_7_9 unlock_BA
  = Return (Some (mkCanonicalIdentifier 1 TN1 7)).
Proof.
  apply (batchunlock_first_match_wins example_local example_history
           example_utils state_A storage_7_9 unlock_BA
           [(node_B, [5; 7; 9])] node_B [5] 7 [9]
           (mkCanonicalIdentifier 1 TN1 7));
    try reflexivity.
  intros c' [<- | []]. reflexivity.
Defined.

(** X16 at node A. *)
Lemma batchunlock_result_comes_from_a_record_witness :
  exists token_network_state partner channel_identifiers c record,
    get_token_network_by_address example_local state_A
      (originating_contract unlock_BA) = Some token_network_state /\
    unlock_partner example_local state_A unlock_BA = Some partner /\
    partneraddresses_to_channelidentifiers example_local
      token_network_state partner = Some channel_identifiers /\
    In c channel_identifiers /\
    matching_record example_local example_history state_A storage_7
      unlock_BA partner c = Some record /\
    data_balance_proof_canonical_identifier example_history record
    = mkCanonicalIdentifier 1 TN1 7.
Proof.
  apply (batchunlock_result_comes_from_a_record example_local
           example_history example_utils state_A storage_7 unlock_BA
           (mkCanonicalIdentifier 1 TN1 7)).
  reflexivity.
Defined.

(** X17 at node A, for the event between C and D. *)
Lemma batchunlock_none_witness :
  get_token_network_by_address example_local state_A
    (originating_contract unlock_CD) <> None /\
  receiver (args (event_data unlock_CD))
  <> chain_state_our_address example_local state_A /\
  sender (args (event_data unlock_CD))
  <> chain_state_our_address example_local state_A.
Proof.
  apply (batchunlock_none_means_not_a_participant example_local
           example_history example_utils state_A storage_7 unlock_CD).
  reflexivity.
Defined.

(** X18 at node A on the archive node. *)
Lemma new_details_witness :
  let details := mkNewChannelDetails 1 REGISTRY1 TOKEN1 node_A 10 node_B 20 in
  (participant1 (args (event_data opened_AB))
   = chain_state_our_address example_local state_A \/
   participant2 (args (event_data opened_AB))
   = chain_state_our_address example_local state_A) /\
  new_chain_id details = chain_id opened_AB /\
  exists token_network_registry,
    get_token_network_registry_by_token_network_address example_local
      state_A (originating_contract opened_AB)
    = Some token_network_registry /\
    payment_network_address details
    = registry_address example_local token_network_registry.
Proof.
  apply (new_details_need_participant_and_registry example_local nat
           archive_node state_A opened_AB 90 (mkChain 0%nat [])
           (mkNewChannelDetails 1 REGISTRY1 TOKEN1 node_A 10 node_B 20)).
  reflexivity.
Defined.

End ResolverProperties.

(** * Properties of the helpers of filters.py *)

Module FilterHelperProperties.
Import Filters FilterHelpers Examples.

Section DecodeEvent.

Variable ABIEntry : Type.
Variable abi_type : ABIEntry -> string.
Variable Rest : Type.
Variable EventData : Type.
Variable decode_hex : string -> Exception + bytes.
Variable hex : Z -> string.
Variable event_abi_to_log_topic : ABIEntry -> bytes.
Variable get_event_data : ABIEntry -> RawLog Rest -> Exception + EventData.

Local Abbreviation decode_event' :=
  (decode_event abi_type decode_hex hex event_abi_to_log_topic
     get_event_data).

Local Abbreviation lookup events event_id :=
  (topic_to_event_abi event_abi_to_log_topic events event_id).

(** The call once the first topic is bytes: the log is left as it is. *)
Lemma decode_event_bytes abi b rest more :
  decode_event' abi (mkRawLog (TopicBytes b :: rest) more)
  = (match lookup (filter_by_type abi_type "event" abi) b with
     | None => Raise (KeyError b)
     | Some event_abi =>
         match get_event_data event_abi
                 (mkRawLog (TopicBytes b :: rest) more) with
         | inl e => Raise e
         | inr data => Return data
         end
     end,
     mkRawLog (TopicBytes b :: rest) more).
Proof.
  unfold decode_event, bind, first_topic, ret, raise. cbn [log_topics].
  destruct (lookup (filter_by_type abi_type "event" abi) b); reflexivity.
Qed.

(** The call on a log whose first topic is text or an integer: it is the
    call on the log with that topic decoded, when it can be decoded. *)
Lemma decode_event_normalises abi t rest more :
  decode_event' abi (mkRawLog (t :: rest) more)
  = match match t with
          | TopicStr s => decode_hex s
          | TopicInt n => decode_hex (hex n)
          | TopicBytes b => inr b
          end with
    | inl e => (Raise e, mkRawLog (t :: rest) more)
    | inr b => decode_event' abi (mkRawLog (TopicBytes b :: rest) more)
    end.
Proof.
  destruct t as [str | n | b]; [| | reflexivity].
  - destruct (decode_hex str) as [e | b] eqn:Hd;
      [| rewrite decode_event_bytes];
      unfold decode_event, bind, first_topic, lift, set_first_topic, ret,
        raise;
      cbn [log_topics log_rest tl]; rewrite Hd; [reflexivity |].
    cbn [log_topics log_rest tl].
    destruct (lookup (filter_by_type abi_type "event" abi) b); reflexivity.
  - destruct (decode_hex (hex n)) as [e | b] eqn:Hd;
      [| rewrite decode_event_bytes];
      unfold decode_event, bind, first_topic, lift, set_first_topic, ret,
        raise;
      cbn [log_topics log_rest tl]; rewrite Hd; [reflexivity |].
    cbn [log_topics log_rest tl].
    destruct (lookup (filter_by_type abi_type "event" abi) b); reflexivity.
Qed.

Lemma decode_event_no_topics abi more :
  decode_event' abi (mkRawLog [] more)
  = (Raise (OtherError "IndexError"), mkRawLog [] more).
Proof. reflexivity. Qed.

(** X19.  [decode_event] writes into the caller's log: a first topic given
    as text or as an integer is replaced by its bytes, and stays replaced
    when the call then fails (unknown topic, or an error of the decoder).
    Nothing else of the log is changed, and a log whose first topic is
    bytes already, or cannot be decoded, is left as it was. *)
Theorem decode_event_rewrites_first_topic_only abi (log : RawLog Rest) :
  let log' :=
    snd (decode_event abi_type decode_hex hex event_abi_to_log_topic
           get_event_data abi log) in
  log_rest log' = log_rest log /\
  tl (log_topics log') = tl (log_topics log) /\
  match log_topics log with
  | TopicStr s :: _ =>
      match decode_hex s with
      | inr b => hd_error (log_topics log') = Some (TopicBytes b)
      | inl _ => log' = log
      end
  | TopicInt n :: _ =>
      match decode_hex (hex n) with
      | inr b => hd_error (log_topics log') = Some (TopicBytes b)
      | inl _ => log' = log
      end
  | _ => log' = log
  end.
Proof.
  destruct log as [[| t rest] more]; cbv zeta.
  - rewrite decode_event_no_topics. repeat split.
  - rewrite decode_event_normalises.
    destruct t as [str | n | b]; cbn [log_topics].
    + destruct (decode_hex str) as [e | b]; [repeat split |].
      rewrite decode_event_bytes. repeat split.
    + destruct (decode_hex (hex n)) as [e | b]; [repeat split |].
      rewrite decode_event_bytes. repeat split.
    + rewrite decode_event_bytes. repeat split.
Qed.

(** X20.  Decoding the log a call of [decode_event] has left behind gives
    the same outcome again and changes the log no further. *)
Theorem decode_event_again_is_the_same abi (log : RawLog Rest) :
  decode_event abi_type decode_hex hex event_abi_to_log_topic
    get_event_data abi
    (snd (decode_event abi_type decode_hex hex event_abi_to_log_topic
            get_event_data abi log))
  = decode_event abi_type decode_hex hex event_abi_to_log_topic
      get_event_data abi log.
Proof.
  destruct log as [[| t rest] more]; [reflexivity |].
  rewrite decode_event_normalises.
  destruct (match t with
            | TopicStr s => decode_hex s
            | TopicInt n => decode_hex (hex n)
            | TopicBytes b => inr b
            end) as [e | b] eqn:Hnorm.
  - cbn [snd]. rewrite decode_event_normalises, Hnorm. reflexivity.
  - rewrite decode_event_bytes. cbn [snd]. rewrite decode_event_bytes.
    reflexivity.
Qed.

Lemma lookup_none events event_id :
  (forall entry, In entry events ->
                 event_abi_to_log_topic entry <> event_id) ->
  lookup events event_id = None.
Proof.
  induction events as [| entry events IH]; intros Hnone; [reflexivity |].
  cbn [topic_to_event_abi]. rewrite IH by (intros x Hin; apply Hnone; now right).
  rewrite ResolverProperties.bytes_eqb_neq; [reflexivity |].
  apply Hnone. now left.
Qed.

Lemma lookup_last before entry after event_id :
  event_abi_to_log_topic entry = event_id ->
  (forall later, In later after ->
                 event_abi_to_log_topic later <> event_id) ->
  lookup (before ++ entry :: after) event_id = Some entry.
Proof.
  intros Htopic Hafter. induction before as [| x before IH].
  - cbn [app topic_to_event_abi]. rewrite (lookup_none _ _ Hafter).
    rewrite Htopic, ResolverProperties.bytes_eqb_refl. reflexivity.
  - cbn [app topic_to_event_abi]. rewrite IH. reflexivity.
Qed.

(** X21.  A log whose first topic, once decoded to bytes, is the topic of
    no event of the ABI makes [decode_event] raise [KeyError] with those
    bytes; entries of the ABI that are not events do not count, whatever
    their topic.  The caller's log is then the log with its first topic
    replaced by the bytes: unchanged when the topic was bytes already,
    rewritten when it was given as a str or an int. *)
Theorem decode_event_unknown_topic abi t rest more b :
  match t with
  | TopicStr s => decode_hex s
  | TopicInt n => decode_hex (hex n)
  | TopicBytes b' => inr b'
  end = inr b ->
  (forall entry, In entry abi -> abi_type entry = "event" ->
                 event_abi_to_log_topic entry <> b) ->
  decode_event abi_type decode_hex hex event_abi_to_log_topic
    get_event_data abi (mkRawLog (t :: rest) more)
  = (Raise (KeyError b), mkRawLog (TopicBytes b :: rest) more).
Proof.
  intros Hnorm Hnone.
  rewrite decode_event_normalises, Hnorm, decode_event_bytes, lookup_none;
    [reflexivity |].
  intros entry Hin. unfold filter_by_type in Hin.
  apply filter_In in Hin. destruct Hin as [Hin Htype].
  apply Hnone; [exact Hin |]. now apply String.eqb_eq.
Qed.

(** X22.  When several events of the ABI have the topic of the log, the
    last of them in the ABI is the one the log is decoded with. *)
Theorem decode_event_last_event_wins before entry after b rest more :
  abi_type entry = "event" ->
  event_abi_to_log_topic entry = b ->
  (forall later, In later after -> abi_type later = "event" ->
                 event_abi_to_log_topic later <> b) ->
  decode_event abi_type decode_hex hex event_abi_to_log_topic
    get_event_data (before ++ entry :: after)
    (mkRawLog (TopicBytes b :: rest) more)
  = (match get_event_data entry (mkRawLog (TopicBytes b :: rest) more) with
     | inl e => Raise e
     | inr data => Return data
     end,
     mkRawLog (TopicBytes b :: rest) more).
Proof.
  intros Htype Htopic Hafter. rewrite decode_event_bytes.
  unfold filter_by_type. rewrite filter_app. cbn [filter].
  rewrite Htype. cbn [String.eqb Ascii.eqb Bool.eqb andb].
  rewrite (lookup_last _ entry _ b Htopic); [reflexivity |].
  intros later Hin. apply filter_In in Hin. destruct Hin as [Hin Hty].
  apply Hafter; [exact Hin |]. now apply String.eqb_eq.
Qed.

End DecodeEvent.

Section FilterArgs.

Variable EventABI : Type.
Variable get_event_abi : string -> string -> Exception + EventABI.
Variable to_checksum_address : bytes -> string.
Variable construct_event_filter_params :
  EventABI -> string -> Z -> BlockSpecification -> BlockSpecification ->
  Exception + FilterParams.

(** X23.  The filter for all events of a channel is the filter for its
    ChannelOpened event with the topics cut down to two: a wildcard in
    place of the event's own topic, and the second topic (the channel
    identifier) kept.  Address and block bounds are those of the
    ChannelOpened filter. *)
Theorem all_events_filter_widens_opened_filter token_network_address
    channel_identifier from_block to_block p :
  get_filter_args_for_all_events_from_channel EventABI get_event_abi
    to_checksum_address construct_event_filter_params
    token_network_address channel_identifier from_block to_block
  = Return p ->
  exists opened topic0 topic1 more,
    get_filter_args_for_specific_event_from_channel EventABI get_event_abi
      to_checksum_address construct_event_filter_params
      token_network_address channel_identifier ChannelEvent_OPENED
      from_block to_block = Return opened /\
    topics opened = topic0 :: topic1 :: more /\
    topics p = [None; topic1] /\
    address p = address opened /\
    fromBlock p = fromBlock opened /\
    toBlock p = toBlock opened.
Proof.
  unfold get_filter_args_for_all_events_from_channel.
  destruct (get_filter_args_for_specific_event_from_channel _ _ _ _ _ _ _
              _ _) as [opened | e |]; try discriminate.
  destruct (topics opened) as [| topic0 [| topic1 more]] eqn:Htopics;
    try discriminate.
  intros [= <-]. exists opened, topic0, topic1, more. repeat split.
  exact Htopics.
Qed.

End FilterArgs.

(** X21 on the example ABI: no event has the topic 0xbb, and the function
    that has it does not count.  The topic is given as text and is bytes
    in the log afterwards. *)
Lemma decode_event_unknown_topic_witness :
  example_decode_event example_abi
    (mkRawLog [TopicStr "0xbb"; TopicBytes [Byte.x07]] tt)
  = (Raise (KeyError [Byte.xbb]),
     mkRawLog [TopicBytes [Byte.xbb]; TopicBytes [Byte.x07]] tt).
Proof.
  apply (decode_event_unknown_topic ExampleABIEntry entry_type unit
           (string * list Topic) example_decode_hex example_hex
           entry_topic example_get_event_data example_abi
           (TopicStr "0xbb") [TopicBytes [Byte.x07]] tt [Byte.xbb]).
  - reflexivity.
  - intros entry [<- | [<- | [<- | [<- | []]]]] Htype;
      try discriminate Htype; discriminate.
Defined.

(** X22 on the example ABI: two events have the topic 0xaa. *)
Lemma decode_event_last_event_wins_witness :
  example_decode_event example_abi
    (mkRawLog [TopicBytes [Byte.xaa]; TopicBytes [Byte.x07]] tt)
  = (Return ("ChannelOpenedV2",
             [TopicBytes [Byte.xaa]; TopicBytes [Byte.x07]]),
     mkRawLog [TopicBytes [Byte.xaa]; TopicBytes [Byte.x07]] tt).
Proof.
  apply (decode_event_last_event_wins ExampleABIEntry entry_type unit
           (string * list Topic) example_decode_hex example_hex
           entry_topic example_get_event_data
           [ mkExampleABIEntry "event" "ChannelOpened" [Byte.xaa];
             mkExampleABIEntry "function" "openChannel" [Byte.xbb];
             mkExampleABIEntry "event" "ChannelClosed" [Byte.xcc] ]
           (mkExampleABIEntry "event" "ChannelOpenedV2" [Byte.xaa])
           [] [Byte.xaa] [TopicBytes [Byte.x07]] tt);
    try reflexivity.
  intros later [].
Defined.

(** X23 with the example contract manager, for channel 7. *)
Lemma all_events_filter_witness :
  let p :=
    mkFilterParams (Some (BlockNum 0)) (Some (BlockTag "latest")) TN1
      [None; Some [Byte.x00; Byte.x07]] in
  exists opened topic0 topic1 more,
    get_filter_args_for_specific_event_from_channel ExampleABIEntry
      example_get_event_abi (fun a => hex a)
      example_construct_event_filter_params TN1 7 ChannelEvent_OPENED
      (BlockNum 0) (BlockTag "latest") = Return opened /\
    topics opened = topic0 :: topic1 :: more /\
    topics p = [None; topic1] /\
    address p = address opened /\
    fromBlock p = fromBlock opened /\
    toBlock p = toBlock opened.
Proof.
  apply (all_events_filter_widens_opened_filter ExampleABIEntry
           example_get_event_abi (fun a => hex a)
           example_construct_event_filter_params TN1 7
           (BlockNum 0) (BlockTag "latest")).
  reflexivity.
Defined.

End FilterHelperProperties.
